(** * gosom: the U-Matrix renderer [som/display.go]

    A shallow embedding of [UMatrixSVG] and [allRowsInRadius], and the
    properties of the rendering pipeline stated over it.

    Conventions of the embedding.
    - Go's [float64] is Rocq's primitive binary64 [float]; every
      arithmetic operation rounds once, as on gc/amd64 (no fused
      multiply-add).
    - A Go function that returns [(v, error)] and may also panic is a
      computation in the [result] monad: [Ok v], [Err e] (a returned
      error) or [Panic p] (a run-time panic).
    - [*mat64.Dense] is the list of its rows, a [*mat64.Vector] the list of
      its entries.
    - The sibling functions [DistanceMx], [Distance] and [GridCoords] of
      package [som] are parameters of the pipeline; section [Collaborators]
      gives the instances the concrete runs use. *)

From Stdlib Require Import ZArith List String Ascii Bool Lia Floats DecimalString Sorted.
From stdpp Require Import base list.
Import ListNotations.

Local Open Scope Z_scope.

(** ** float64 *)

Definition float64 := float.

(** [float64(i)] for an [int]: the nearest binary64, ties to even. *)
Definition f64_of_int (z : Z) : float64 :=
  SF2Prim (binary_normalize prec emax z 0 false).

(** The integer part of a finite float (rounding toward zero); [None] for
    NaN and the infinities. *)
Definition trunc_float (f : float64) : option Z :=
  match Prim2SF f with
  | S754_zero _ => Some 0
  | S754_finite s m e =>
      let a := if 0 <=? e then Z.pos m * 2 ^ e else Z.pos m / 2 ^ (- e) in
      Some (if s then - a else a)
  | S754_infinity _ | S754_nan => None
  end.

Definition min_int : Z := - 2 ^ 63.
Definition max_int : Z := 2 ^ 63 - 1.

Definition in_int (z : Z) : bool := (min_int <=? z) && (z <=? max_int).

(** [int(f)]: the Go specification fixes the result (truncation toward
    zero) only when the truncated value fits an [int]; otherwise "the
    conversion succeeds but the result value is implementation-dependent".
    [indefinite] is that implementation's choice. *)
Definition int_of_f64 (indefinite : float64 -> Z) (f : float64) : Z :=
  match trunc_float f with
  | Some z => if in_int z then z else indefinite f
  | None => indefinite f
  end.

(** gc on amd64 converts with CVTTSD2SQ, which answers the "integer
    indefinite" value 0x8000000000000000 for NaN and for every value out of
    range. *)
Definition amd64_indefinite : float64 -> Z := fun _ => min_int.

(** [math.Round] followed by [int]: nearest integer, halves away from zero.
    Used only to state the rounding the specification asks for. *)
Definition round_float (f : float64) : option Z :=
  match Prim2SF f with
  | S754_zero _ => Some 0
  | S754_finite s m e =>
      let a := if 0 <=? e then Z.pos m * 2 ^ e
               else (2 * Z.pos m + 2 ^ (- e)) / (2 * 2 ^ (- e)) in
      Some (if s then - a else a)
  | S754_infinity _ | S754_nan => None
  end.

Definition is_nan (f : float64) : bool :=
  match Prim2SF f with S754_nan => true | _ => false end.

(** ** fmt.Sprintf verbs *)

Local Open Scope string_scope.
Local Open Scope list_scope.
Local Open Scope stdpp_scope.
Local Open Scope Z_scope.

Local Infix "+:+" := String.append (at level 60, right associativity).

(** [%d] *)
Definition fmt_d (z : Z) : string := NilZero.string_of_int (Z.to_int z).

Fixpoint zeros (n : nat) : string :=
  match n with O => "" | S n' => "0" +:+ zeros n' end.

(** [n] is the absolute value scaled by 10^6 and already rounded. *)
Definition fixed6 (neg : bool) (n : Z) : string :=
  let frac := fmt_d (n mod 10 ^ 6) in
  (if neg then "-" else "") +:+ fmt_d (n / 10 ^ 6) +:+ "."
    +:+ zeros (6 - String.length frac) +:+ frac.

Definition round_half_even (num den : Z) : Z :=
  let q := num / den in
  let r := num mod den in
  if 2 * r <? den then q
  else if den <? 2 * r then q + 1
  else if Z.even q then q else q + 1.

(** [%f]: six decimals of the exact binary value, correctly rounded. *)
Definition fmt_f (f : float64) : string :=
  match Prim2SF f with
  | S754_nan => "NaN"
  | S754_infinity false => "+Inf"
  | S754_infinity true => "-Inf"
  | S754_zero s => fixed6 s 0
  | S754_finite s m e =>
      fixed6 s (if 0 <=? e then Z.pos m * 2 ^ e * 10 ^ 6
                else round_half_even (Z.pos m * 10 ^ 6) (2 ^ (- e)))
  end.

(** ** Results of Go calls *)

Definition error := string.

(** The panics of gonum's [mat64] accessors and of slice indexing. *)
Inductive panic : Type :=
| ErrRowAccess
| ErrColAccess
| ErrShape
| IndexOutOfRange.

Inductive result (A : Type) : Type :=
| Ok (a : A)
| Err (e : error)
| Panic (p : panic).

Arguments Ok {A} a.
Arguments Err {A} e.
Arguments Panic {A} p.

#[export] Instance result_ret : MRet result := fun _ a => Ok a.
#[export] Instance result_bind : MBind result := fun _ _ k r =>
  match r with
  | Ok a => k a
  | Err e => Err e
  | Panic p => Panic p
  end.

(** A collaborator returns [(v, err)] and does not panic. *)
Definition checked (A : Type) : Type := A + error.

Definition try {A} (c : checked A) : result A :=
  match c with inl a => Ok a | inr e => Err e end.

(** An access is out of bounds when it raises one of these. *)
Definition access_panic (p : panic) : bool :=
  match p with
  | ErrRowAccess | ErrColAccess | IndexOutOfRange => true
  | ErrShape => false
  end.

(** ** mat64 *)

Abbreviation Vector := (list float64).
Abbreviation Dense := (list (list float64)).

Definition Dims (m : Dense) : nat * nat :=
  (length m, match m with [] => O | r :: _ => length r end).

(** [m.RowView(i)] panics with [ErrRowAccess] outside [0, rows). *)
Definition RowView (m : Dense) (i : nat) : result Vector :=
  match m !! i with
  | Some r => Ok r
  | None => Panic ErrRowAccess
  end.

(** [v.At(i, j)]: the row is checked first, then the column, which must
    be 0. *)
Definition At (v : Vector) (i j : nat) : result float64 :=
  match v !! i with
  | None => Panic ErrRowAccess
  | Some x => if Nat.eqb j 0 then Ok x else Panic ErrColAccess
  end.

(** [mat64.Max]: panics with [ErrShape] on a matrix of zero size, else scans
    every entry from [-Inf] keeping [v] when [v > max]. *)
Definition Max (m : Dense) : result float64 :=
  let '(r, c) := Dims m in
  if (Nat.eqb r 0 || Nat.eqb c 0)%bool then Panic ErrShape
  else Ok (fold_left
             (fun mx row => fold_left (fun mx v => if (mx <? v)%float then v else mx) row mx)
             m neg_infinity).

(** [s[i]] on a slice of ints. *)
Definition index (s : list Z) (i : nat) : result Z :=
  match s !! i with
  | Some x => Ok x
  | None => Panic IndexOutOfRange
  end.

(** ** display.go: types *)

Record rowWithDist : Type := mkRowWithDist { Row : nat; Dist : float64 }.

Record h1 : Type := mkH1 { Title : string }.

Record polygon : Type := mkPolygon { Points : string; Style : string }.

(** ** allRowsInRadius *)

(** The [range] loop over the raw data of the selected row: [i] is the
    index of the head of [data], [rowsInRadius] the slice appended to. *)
Fixpoint rangeRow (radius : float64) (i : nat) (data : list float64)
    (rowsInRadius : list rowWithDist) : list rowWithDist :=
  match data with
  | [] => rowsInRadius
  | dist :: rest =>
      rangeRow radius (S i) rest
        (if (dist <? radius)%float
         then rowsInRadius ++ [mkRowWithDist i dist]
         else rowsInRadius)
  end.

Definition allRowsInRadius (selectedRow : nat) (radius : float64)
    (distMatrix : Dense) : result (list rowWithDist) :=
  data ← RowView distMatrix selectedRow;
  mret (rangeRow radius 0 data []).

(** [math.Sqrt2*1.01] is a constant expression: the product is exact and is
    rounded once, when it becomes the [float64] argument. *)
Definition neighbourRadius : float64 := 0x1.6da8b811f39d6p+0%float.

(** The slice [svgElement.Polygons]: a window of [len] elements, from
    [offset], on the array that [make([]polygon, rows)] allocated. The
    array is the only object [UMatrixSVG] writes to after sharing it: the
    struct is copied into [elems] before the loop fills the array, and the
    copy keeps pointing at it. *)
Record slice : Type := mkSlice { offset : nat; len : nat }.

Abbreviation store := (list polygon).

Definition make (n : nat) : store * slice :=
  (replicate n (mkPolygon "" ""), mkSlice 0 n).

(** [s[i] = p] *)
Definition slice_set (s : slice) (i : nat) (p : polygon) (st : store) : result store :=
  if (i <? len s)%nat then Ok (<[(offset s + i)%nat := p]> st)
  else Panic IndexOutOfRange.

(** The elements an encoder reads through [s]. *)
Definition slice_elems (s : slice) (st : store) : list polygon :=
  take (len s) (drop (offset s) st).

Record svgElement : Type :=
  mkSvgElement { Width : float64; Height : float64; Polygons : slice }.

(** The dynamic values held by [elems []interface{}]. *)
Inductive elem : Type :=
| Eh1 (h : h1)
| Esvg (s : svgElement).

(** ** encoding/xml *)

(** What the struct tags of [h1], [polygon] and [svgElement] make the
    encoder emit: elements, with attributes whose values are still typed
    ([float64], [[]byte], [string]) and verbatim inner XML. *)
Inductive attr_value : Type :=
| AttrFloat64 (f : float64)
| AttrBytes (b : string)
| AttrString (s : string).

#[warnings="-register-all"]
Inductive xml_node : Type :=
| Element (name : string) (attrs : list (string * attr_value))
    (innerxml : string) (children : list xml_node).

Definition marshal_h1 (h : h1) : xml_node :=
  Element "h1" [] (Title h) [].

Definition marshal_polygon (p : polygon) : xml_node :=
  Element "polygon"
    [("points", AttrBytes (Points p)); ("style", AttrString (Style p))] "" [].

Definition marshal_svgElement (st : store) (s : svgElement) : xml_node :=
  Element "svg"
    [("width", AttrFloat64 (Width s)); ("height", AttrFloat64 (Height s))] ""
    (map marshal_polygon (slice_elems (Polygons s) st)).

(** A slice is marshalled element by element, without an enclosing tag. *)
Definition marshal (st : store) (elems : list elem) : list xml_node :=
  map (fun e => match e with
                | Eh1 h => marshal_h1 h
                | Esvg s => marshal_svgElement st s
                end) elems.

(** ** The pipeline *)

Section Pipeline.

(** What [int(f)] yields on this platform when [f] does not fit. *)
Variable int_indefinite : float64 -> Z.

(** Package [som]: pairwise distances of the rows of a matrix, distance of
    two vectors, and the grid coordinates of the units. *)
Variable DistanceMx : string -> Dense -> checked Dense.
Variable Distance : string -> Vector -> Vector -> checked float64.
Variable GridCoords : string -> list Z -> checked Dense.

(** The byte slices in which [encoding/xml] hands the text of a list of
    nodes to the sink, in order. The encoder prints into a [bufio.Writer] of
    4096 bytes, which passes its buffer on each time it is full and once
    more on the final flush: a text of more than 4096 bytes reaches the sink
    in several writes. Then the sink: an [io.Writer] with its state; a
    short write counts as an error, as [bufio] treats it. *)
Variable bytes : Type.
Variable xmlWrites : list xml_node -> list bytes.
Variable W : Type.
Variable Write : W -> bytes -> W * option error.

(** *** xml.Encoder *)

(** The encoder's [bufio.Writer] with its sticky error: once a write has
    failed nothing more is written. *)
Record Encoder : Type := mkEncoder { enc_w : W; enc_err : option error }.

Definition NewEncoder (w : W) : Encoder := mkEncoder w None.

(** The slices go to the sink one after the other, up to the first write
    that fails. *)
Fixpoint writeAll (w : W) (slices : list bytes) : W * option error :=
  match slices with
  | [] => (w, None)
  | b :: rest =>
      let '(w', r) := Write w b in
      match r with
      | Some e => (w', Some e)
      | None => writeAll w' rest
      end
  end.

(** [Encode] marshals its argument and flushes. *)
Definition Encode (enc : Encoder) (st : store) (elems : list elem)
    : Encoder * option error :=
  match enc_err enc with
  | Some e => (enc, Some e)
  | None =>
      let '(w', r) := writeAll (enc_w enc) (xmlWrites (marshal st elems)) in
      (mkEncoder w' r, r)
  end.

(** [Flush] after [Encode]: nothing is pending. *)
Definition Flush (enc : Encoder) : Encoder * option error :=
  (enc, enc_err enc).

(** *** UMatrixSVG *)

Definition MUL : float64 := 20%float.
Definition OFF : float64 := 10%float.

Definition scale (x : float64) : float64 := (MUL * x + OFF)%float.

(** Lines 80-90: the [range] over the neighbours, accumulating into
    [avgDistance]. *)
Fixpoint sumNeighbours (codebook : Dense) (cbVec : Vector)
    (rwds : list rowWithDist) (avgDistance : float64) : result float64 :=
  match rwds with
  | [] => Ok avgDistance
  | rwd :: rest =>
      if (0 <? Dist rwd)%float then
        otherMu ← RowView codebook (Row rwd);
        cbvDist ← try (Distance "euclidean" cbVec otherMu);
        sumNeighbours codebook cbVec rest (avgDistance + cbvDist)%float
      else sumNeighbours codebook cbVec rest avgDistance
  end.

(** Lines 76-91: the aggregated dissimilarity of unit [row]. *)
Definition avgDistanceOf (codebook coordsDistMat : Dense) (row : nat)
    : result float64 :=
  cbVec ← RowView codebook row;
  rwds ← allRowsInRadius row neighbourRadius coordsDistMat;
  avgDistance ← sumNeighbours codebook cbVec rwds 0%float;
  mret (avgDistance / f64_of_int (Z.of_nat (length rwds) - 1))%float.

(** Line 92. *)
Definition colorOf (maxDistance avgDistance : float64) : Z :=
  int_of_f64 int_indefinite ((1 - avgDistance / maxDistance) * 255)%float.

(** [fmt.Sprintf("%f,%f ", a, b)] *)
Definition sprintPoint (a b : float64) : string :=
  fmt_f a +:+ "," +:+ fmt_f b +:+ " ".

(** Line 96. *)
Definition xOffsetOf : float64 := (0.5 * MUL)%float.

(** Lines 97-101. *)
Definition yOffsetOf (uShape : string) : float64 :=
  if String.eqb uShape "hexagon" then (sqrt 0.75 / 2 * MUL)%float
  else (0.5 * MUL)%float.

(** Lines 93-107. *)
Definition polygonCoordsOf (uShape : string) (coord : Vector) : result string :=
  cx ← At coord 0 0;
  let x := scale cx in
  cy ← At coord 1 0;
  let y := scale cy in
  let xOffset := xOffsetOf in
  let yOffset := yOffsetOf uShape in
  mret (sprintPoint (x + xOffset) (y + yOffset)
        +:+ sprintPoint (x + xOffset) (y - yOffset)
        +:+ sprintPoint (x - xOffset) (y - yOffset)
        +:+ sprintPoint (x - xOffset) (y + yOffset)
        +:+ sprintPoint (x + xOffset) (y + yOffset))%float.

Definition styleOf (color : Z) : string :=
  "fill:rgb(" +:+ fmt_d color +:+ "," +:+ fmt_d color +:+ "," +:+ fmt_d color
    +:+ ");stroke:black;stroke-width:1".

(** Lines 75-112: the body of the loop over the units. *)
Definition unitPolygon (codebook coords coordsDistMat : Dense)
    (maxDistance : float64) (uShape : string) (row : nat) : result polygon :=
  coord ← RowView coords row;
  avgDistance ← avgDistanceOf codebook coordsDistMat row;
  let color := colorOf maxDistance avgDistance in
  polygonCoords ← polygonCoordsOf uShape coord;
  mret (mkPolygon polygonCoords (styleOf color)).

(** Lines 74-113: [for row := 0; row < rows; row++], over the rows still
    to visit; [svgElem.Polygons[row]] is written through the slice. *)
Fixpoint forRows (body : nat -> result polygon) (polygons : slice)
    (todo : list nat) (st : store) : result store :=
  match todo with
  | [] => Ok st
  | row :: rest =>
      p ← body row;
      st' ← slice_set polygons row p st;
      forRows body polygons rest st'
  end.

(** Lines 43-113: everything before the document is encoded. *)
Definition buildElems (codebook : Dense) (coordsDims : list Z)
    (uShape title : string) : result (list elem * store) :=
  let elems := [Eh1 (mkH1 title)] in
  let rows := fst (Dims codebook) in
  distMat ← try (DistanceMx "euclidean" codebook);
  coords ← try (GridCoords uShape coordsDims);
  coordsDistMat ← try (DistanceMx "euclidean" coords);
  maxDistance ← Max distMat;
  cols_ ← index coordsDims 1;
  rows_ ← index coordsDims 0;
  let '(st, polygons) := make rows in
  let svgElem :=
    mkSvgElement (f64_of_int cols_ * MUL + 2 * OFF)%float
                 (f64_of_int rows_ * MUL + 2 * OFF)%float
                 polygons in
  let elems := elems ++ [Esvg svgElem] in
  st' ← forRows (unitPolygon codebook coords coordsDistMat maxDistance uShape)
                (Polygons svgElem) (seq 0 rows) st;
  mret (elems, st').

(** What the function hands back: [Ok tt] is a [nil] error, [Err e] a
    returned error; with it, the sink after the call. *)
Definition UMatrixSVG (codebook : Dense) (coordsDims : list Z)
    (uShape title : string) (writer : W) : result unit * W :=
  let xmlEncoder := NewEncoder writer in
  match buildElems codebook coordsDims uShape title with
  | Ok (elems, st) =>
      let '(xmlEncoder, _) := Encode xmlEncoder st elems in
      let '(xmlEncoder, _) := Flush xmlEncoder in
      (Ok tt, enc_w xmlEncoder)
  | Err e => (Err e, writer)
  | Panic p => (Panic p, writer)
  end.

End Pipeline.

(** ** Collaborators *)

Section Collaborators.

(** Modelled from the spec: the euclidean metric behind [Distance] and
    [DistanceMx], both missing from the sources; the only metric the
    pipeline asks for. *)
Definition euclidean (a b : Vector) : float64 :=
  sqrt (fold_left (fun acc xy => acc + (xy.1 - xy.2) * (xy.1 - xy.2))
          (zip a b) 0)%float.

(** Modelled from the spec: [Distance] is missing from the sources. The
    spec's PointwiseDistance takes a metric name and two vectors, and fails
    with UnknownMetric on an unrecognised name. *)
Definition Distance (metric : string) (a b : Vector) : checked float64 :=
  if String.eqb metric "euclidean" then inl (euclidean a b)
  else inr "UnknownMetric".

(** Modelled from the spec: [DistanceMx] is missing from the sources. The
    spec's PairwiseDistance yields the N x N matrix of the distances
    between the rows of its argument, and fails with UnknownMetric. *)
Definition DistanceMx (metric : string) (m : Dense) : checked Dense :=
  if String.eqb metric "euclidean"
  then inl (map (fun a => map (fun b => euclidean a b) m) m)
  else inr "UnknownMetric".

(** Modelled from the spec: the rectangular layout of [GridCoords], which is
    missing from the sources. The grid is unit-spaced; units are numbered
    row by row, and a row of the matrix is [(x, y)]. *)
Definition rectCoords (rows cols : nat) : Dense :=
  r ← seq 0 rows;
  c ← seq 0 cols;
  [[f64_of_int (Z.of_nat c); f64_of_int (Z.of_nat r)]].

(** Modelled from the spec: the hexagonal layout of [GridCoords]. Every
    other row is shifted by half a unit and the rows are [sqrt 0.75] apart,
    so that the six immediate neighbours of a unit are at distance 1. *)
Definition hexCoords (rows cols : nat) : Dense :=
  r ← seq 0 rows;
  c ← seq 0 cols;
  [[(f64_of_int (Z.of_nat c) + (if Nat.even r then 0 else 0.5))%float;
    (f64_of_int (Z.of_nat r) * sqrt 0.75)%float]].

(** Modelled from the spec: [GridCoords] is missing from the sources. The
    spec's GenerateGridCoordinates takes the topology and
    [dims = [rows, cols]], yields one [(x, y)] row per unit, and fails
    with UnsupportedTopology on an unrecognised topology. *)
Definition GridCoords (uShape : string) (dims : list Z) : checked Dense :=
  match dims with
  | [rows; cols] =>
      if String.eqb uShape "rectangle"
      then inl (rectCoords (Z.to_nat rows) (Z.to_nat cols))
      else if String.eqb uShape "hexagon"
      then inl (hexCoords (Z.to_nat rows) (Z.to_nat cols))
      else inr "UnsupportedTopology"
  | _ => inr "UnsupportedDimensions"
  end.

End Collaborators.

(** ** Sinks *)

(** A buffer that accepts every write, and a sink that rejects every write.
    In the concrete runs the wire format is the list of nodes itself, handed
    over in one slice: the maps are small, their text is below 4096 bytes. *)
Definition bufferWrite {B : Type} (w : list B) (b : B) : list B * option error :=
  (w ++ [b], None).

Definition brokenWrite {B : Type} (w : list B) (b : B) : list B * option error :=
  (w, Some "write: broken pipe").

(** A sink with room for one slice: it accepts a write while it is empty and
    rejects every later one. *)
Definition roomForOne {B : Type} (w : list B) (b : B) : list B * option error :=
  match w with
  | [] => ([b], None)
  | _ :: _ => (w, Some "write: no space left on device")
  end.

(** The pipeline on gc/amd64 with the collaborators above. *)
Definition buildElems_amd64 : Dense -> list Z -> string -> string -> result (list elem * store) :=
  buildElems amd64_indefinite DistanceMx Distance GridCoords.

Definition UMatrixSVG_amd64
    (Write : list (list xml_node) -> list xml_node -> list (list xml_node) * option error)
    : Dense -> list Z -> string -> string -> list (list xml_node)
      -> result unit * list (list xml_node) :=
  UMatrixSVG amd64_indefinite DistanceMx Distance GridCoords
    (list xml_node) (fun nodes => [nodes]) (list (list xml_node)) Write.

(** ** Vocabulary of the statements *)

(** The polygons an encoder finds in a document: those of its [svg]
    elements, read through their slices. *)
Definition polygonsOf (doc : list elem * store) : list polygon :=
  flat_map (fun e => match e with
                     | Eh1 _ => []
                     | Esvg s => slice_elems (Polygons s) doc.2
                     end) doc.1.

(** The outline the specification describes: the corners of the box of
    half-extents [hx] and [hy] around [(x, y)], the first one repeated at the
    end; and its text, one ["%f,%f "] per point. *)
Definition closedOutline (x y hx hy : float64) : list (float64 * float64) :=
  [(x + hx, y + hy); (x + hx, y - hy); (x - hx, y - hy); (x - hx, y + hy);
   (x + hx, y + hy)]%float.

Definition sprintPoints (pts : list (float64 * float64)) : string :=
  fold_right (fun pt s => sprintPoint pt.1 pt.2 +:+ s) "" pts.

(** A call whose accesses were all in bounds: it returned, or it panicked
    for another reason than an index. *)
Definition in_bounds {A : Type} (r : result A) : Prop :=
  match r with
  | Panic pn => access_panic pn = false
  | _ => True
  end.

(** [m] has [r] rows of [c] entries. *)
Definition has_shape (r c : nat) (m : Dense) : Prop :=
  length m = r /\ Forall (fun v : Vector => length v = c) m.

(** ** Inputs of the concrete runs *)

(** The scenario of the specification: four units on a 2 x 2 rectangular
    grid, with the weights (0,0), (1,0), (0,1), (1,1). *)
Definition squareCodebook : Dense := [[0; 0]; [1; 0]; [0; 1]; [1; 1]]%float.

(** Four units with the same weights. *)
Definition flatCodebook : Dense := [[1; 1]; [1; 1]; [1; 1]; [1; 1]]%float.

(** A map of one unit. *)
Definition singleCodebook : Dense := [[0.5; 0.25]]%float.

(** A stand-in for [GridCoords] that does not look at the number of
    dimensions: it lays out a square map from the first one. Used only to
    show that a generator which accepts a short [coordsDims] lets
    [UMatrixSVG] reach line 69. *)
Definition squareGridCoords (uShape : string) (dims : list Z) : checked Dense :=
  match dims with
  | side :: _ => inl (rectCoords (Z.to_nat side) (Z.to_nat side))
  | [] => inr "UnsupportedDimensions"
  end.

(** * Properties *)

(** ** The result monad *)

Lemma bind_Ok {A B} (m : result A) (k : A -> result B) (b : B) :
  m ≫= k = Ok b -> exists a, m = Ok a /\ k a = Ok b.
Proof. destruct m as [a| |]; simpl; intros H; try discriminate. by exists a. Qed.

Lemma bind_Panic {A B} (m : result A) (k : A -> result B) (p : panic) :
  m ≫= k = Panic p -> m = Panic p \/ exists a, m = Ok a /\ k a = Panic p.
Proof.
  destruct m as [a| |]; simpl; intros H; try discriminate.
  - right. exists a. split; [reflexivity | exact H].
  - left. congruence.
Qed.

Lemma try_Ok {A} (c : checked A) (a : A) : try c = Ok a -> c = inl a.
Proof. destruct c; simpl; congruence. Qed.

Lemma try_not_Panic {A} (c : checked A) (p : panic) : try c <> Panic p.
Proof. by destruct c. Qed.

Lemma RowView_Ok (m : Dense) (i : nat) (v : Vector) :
  RowView m i = Ok v <-> m !! i = Some v.
Proof. unfold RowView. destruct (m !! i); split; congruence. Qed.

Lemma RowView_lt (m : Dense) (i : nat) :
  (i < length m)%nat -> exists v, RowView m i = Ok v /\ m !! i = Some v.
Proof.
  intros H. destruct (lookup_lt_is_Some_2 m i H) as [v Hv].
  exists v. by rewrite RowView_Ok.
Qed.

Lemma At_Ok (v : Vector) (i : nat) (x : float64) :
  At v i 0 = Ok x <-> v !! i = Some x.
Proof. unfold At. destruct (v !! i); simpl; split; congruence. Qed.

Ltac bind_inv H :=
  let a := fresh "a" in
  let Ha := fresh "Ha" in
  apply bind_Ok in H; destruct H as (a & Ha & H).

(** ** allRowsInRadius *)

Lemma rangeRow_acc radius data : forall (i : nat) (acc : list rowWithDist),
  rangeRow radius i data acc = acc ++ rangeRow radius i data [].
Proof.
  induction data as [|d rest IH]; intros i acc; simpl.
  - by rewrite app_nil_r.
  - destruct (d <? radius)%float; simpl; [|apply IH].
    rewrite (IH (S i) (acc ++ _)), (IH (S i) [_]). by rewrite <- app_assoc.
Qed.

Lemma rangeRow_cons radius i d rest :
  rangeRow radius i (d :: rest) [] =
  (if (d <? radius)%float then [mkRowWithDist i d] else [])
    ++ rangeRow radius (S i) rest [].
Proof. simpl. rewrite rangeRow_acc. by destruct (d <? radius)%float. Qed.

Lemma elem_of_rangeRow radius data : forall (i j : nat) (d : float64),
  mkRowWithDist j d ∈ rangeRow radius i data [] <->
  (i <= j)%nat /\ data !! (j - i)%nat = Some d /\ (d <? radius)%float = true.
Proof.
  induction data as [|x rest IH]; intros i j d.
  - simpl. split; [by intros ?%elem_of_nil | by intros (_ & ? & _)].
  - rewrite rangeRow_cons, elem_of_app, IH. split.
    + intros [H | (Hle & Hl & Hd)].
      * destruct (x <? radius)%float eqn:Hx; [|by apply elem_of_nil in H].
        apply list_elem_of_singleton in H. injection H as -> ->.
        rewrite Nat.sub_diag. done.
      * split; [lia|]. split; [|done].
        replace (j - i)%nat with (S (j - S i)) by lia. done.
    + intros (Hle & Hl & Hd).
      destruct (decide (j = i)) as [-> | Hne].
      * rewrite Nat.sub_diag in Hl. simpl in Hl. injection Hl as ->.
        left. rewrite Hd. by apply list_elem_of_singleton.
      * right. split; [lia|]. split; [|done].
        replace (j - i)%nat with (S (j - S i)) in Hl by lia. done.
Qed.

Lemma rangeRow_rows_ge radius data : forall i : nat,
  Forall (fun r => (i <= r)%nat) (map Row (rangeRow radius i data [])).
Proof.
  induction data as [|x rest IH]; intros i; [constructor|].
  rewrite rangeRow_cons, map_app, Forall_app. split.
  - destruct (x <? radius)%float; repeat constructor.
  - eapply Forall_impl; [apply IH|]. simpl. lia.
Qed.

Lemma rangeRow_NoDup radius data : forall i : nat,
  NoDup (map Row (rangeRow radius i data [])).
Proof.
  induction data as [|x rest IH]; intros i; [constructor|].
  rewrite rangeRow_cons, map_app.
  destruct (x <? radius)%float; simpl; [|apply IH].
  apply NoDup_cons_2; [|apply IH].
  intros Hin. pose proof (rangeRow_rows_ge radius rest (S i)) as Hge.
  rewrite Forall_forall in Hge. apply Hge in Hin. lia.
Qed.

Lemma rangeRow_rows_lt radius data : forall i : nat,
  Forall (fun r => (Row r < i + length data)%nat) (rangeRow radius i data []).
Proof.
  induction data as [|x rest IH]; intros i; [constructor|].
  rewrite rangeRow_cons, Forall_app. split.
  - destruct (x <? radius)%float; repeat constructor. simpl. lia.
  - eapply Forall_impl; [apply IH|]. simpl. lia.
Qed.

(** ** float64 facts *)

Lemma Prim2SF_zero : Prim2SF 0%float = S754_zero false.
Proof. reflexivity. Qed.

Lemma Prim2SF_neighbourRadius :
  Prim2SF neighbourRadius = S754_finite false 6432742189251030 (-52).
Proof. reflexivity. Qed.

(** [neighbourRadius] is the binary64 nearest to the exact product of the
    constants [math.Sqrt2] and [1.01]: with
    [Sqrt2 = 141421356237309504880168872420969807856967187537694807317667974 / 10^62]
    the two differ by at most half a unit in the last place, [2^-53]. *)
Lemma neighbourRadius_nearest :
  exists m : positive,
    Prim2SF neighbourRadius = S754_finite false m (-52) /\
    2 * Z.abs (Z.pos m * 10 ^ 64
               - 141421356237309504880168872420969807856967187537694807317667974
                 * 101 * 2 ^ 52) <= 10 ^ 64.
Proof.
  exists 6432742189251030%positive. split; [reflexivity|].
  vm_compute. discriminate.
Qed.

(** A distance that compares equal to 0 is a zero of either sign. *)
Lemma eqb_zero_inv (d : float64) :
  (d =? 0)%float = true -> exists s, Prim2SF d = S754_zero s.
Proof.
  rewrite FloatAxioms.eqb_spec, Prim2SF_zero.
  destruct (Prim2SF d) as [s|s| |s m e]; try (by destruct s); try discriminate.
  intros _. by exists s.
Qed.

Lemma zero_lt_neighbourRadius (d : float64) :
  (d =? 0)%float = true -> (d <? neighbourRadius)%float = true.
Proof.
  intros [s Hs]%eqb_zero_inv.
  by rewrite FloatAxioms.ltb_spec, Hs, Prim2SF_neighbourRadius.
Qed.

Lemma zero_not_positive (d : float64) :
  (d =? 0)%float = true -> (0 <? d)%float = false.
Proof.
  intros [s Hs]%eqb_zero_inv.
  by rewrite FloatAxioms.ltb_spec, Hs, Prim2SF_zero.
Qed.

(** C6. For a unit [r] whose row of the grid-space distance matrix is
    [dists], [allRowsInRadius] returns exactly the units [j] whose distance
    [d] to [r] is below [sqrt 2 * 1.01], each once and paired with that
    distance; and [r] itself is among them as soon as its self-distance is
    0. *)
Theorem allRowsInRadius_exact (distMatrix : Dense) (r : nat) (dists : Vector) :
  distMatrix !! r = Some dists ->
  exists rwds : list rowWithDist,
    allRowsInRadius r neighbourRadius distMatrix = Ok rwds /\
    (forall (j : nat) (d : float64),
        mkRowWithDist j d ∈ rwds <->
        dists !! j = Some d /\ (d <? neighbourRadius)%float = true) /\
    NoDup (map Row rwds) /\
    (forall d : float64,
        dists !! r = Some d -> (d =? 0)%float = true ->
        mkRowWithDist r d ∈ rwds).
Proof.
  intros Hrow. exists (rangeRow neighbourRadius 0 dists []).
  assert (Hiff : forall (j : nat) (d : float64),
             mkRowWithDist j d ∈ rangeRow neighbourRadius 0 dists [] <->
             dists !! j = Some d /\ (d <? neighbourRadius)%float = true).
  { intros j d. rewrite elem_of_rangeRow, Nat.sub_0_r. intuition lia. }
  split; [|split; [exact Hiff|split]].
  - unfold allRowsInRadius. apply RowView_Ok in Hrow. by rewrite Hrow.
  - apply rangeRow_NoDup.
  - intros d Hd Hz. apply Hiff. split; [exact Hd|].
    by apply zero_lt_neighbourRadius.
Qed.

Lemma allRowsInRadius_exact_witness :
  exists rwds : list rowWithDist,
    allRowsInRadius 1 neighbourRadius
      [[0; 1; 2]; [1; 0; 1]; [2; 1; 0]]%float = Ok rwds /\
    (forall (j : nat) (d : float64),
        mkRowWithDist j d ∈ rwds <->
        [1; 0; 1]%float !! j = Some d /\ (d <? neighbourRadius)%float = true) /\
    NoDup (map Row rwds) /\
    (forall d : float64,
        [1; 0; 1]%float !! 1%nat = Some d -> (d =? 0)%float = true ->
        mkRowWithDist 1 d ∈ rwds).
Proof.
  apply (allRowsInRadius_exact [[0; 1; 2]; [1; 0; 1]; [2; 1; 0]]%float 1
           [1; 0; 1]%float).
  reflexivity.
Defined.

(** ** The loop over the units *)

Lemma slice_set_Ok (s : slice) (i : nat) (p : polygon) (st st' : store) :
  slice_set s i p st = Ok st' ->
  (i < len s)%nat /\ st' = <[(offset s + i)%nat := p]> st.
Proof.
  unfold slice_set. destruct (i <? len s)%nat eqn:Hi; [|discriminate].
  apply Nat.ltb_lt in Hi. intros [= <-]. done.
Qed.

(** A completed loop has stored, for every row it visited, the polygon its
    body computed for that row, and has touched nothing else. *)
Lemma forRows_Ok (body : nat -> result polygon) (s : slice) :
  forall (todo : list nat) (st st' : store),
    forRows body s todo st = Ok st' ->
    NoDup todo ->
    (offset s + len s <= length st)%nat ->
    length st' = length st /\
    (forall row : nat, row ∈ todo ->
       (row < len s)%nat /\
       exists p, body row = Ok p /\ st' !! (offset s + row)%nat = Some p) /\
    (forall i : nat, (forall row : nat, row ∈ todo -> i <> (offset s + row)%nat) ->
       st' !! i = st !! i).
Proof.
  induction todo as [|row rest IH]; intros st st' H Hnd Hlen.
  - injection H as <-. split; [done|]. split; [|done].
    by intros row ?%elem_of_nil.
  - simpl in H. bind_inv H. rename a into p. bind_inv H. rename a into st1.
    apply slice_set_Ok in Ha0 as [Hrow ->].
    apply NoDup_cons in Hnd as [Hnotin Hnd].
    assert (Hlen1 : (offset s + len s <= length (<[(offset s + row)%nat := p]> st))%nat)
      by (by rewrite length_insert).
    destruct (IH _ _ H Hnd Hlen1) as (Hl & Hin & Hout).
    rewrite length_insert in Hl. split; [done|]. split.
    + intros row' [-> | Hr]%elem_of_cons; [|by apply Hin].
      split; [done|]. exists p. split; [done|].
      rewrite Hout.
      * apply list_lookup_insert_eq. lia.
      * intros row' Hr ?. assert (row = row') as -> by lia. done.
    + intros i Hi. rewrite Hout.
      * apply list_lookup_insert_ne. intros Heq.
        apply (Hi row); [apply elem_of_cons; by left | done].
      * intros row' Hr. apply Hi, elem_of_cons. by right.
Qed.

(** The loop panics only where its body does: the store is written within
    the slice as long as the rows are. *)
Lemma forRows_Panic (body : nat -> result polygon) (s : slice) (pn : panic) :
  forall (todo : list nat) (st : store),
    forRows body s todo st = Panic pn ->
    Forall (fun row => (row < len s)%nat) todo ->
    exists row : nat, row ∈ todo /\ body row = Panic pn.
Proof.
  induction todo as [|row rest IH]; intros st H Hlt; [discriminate|].
  apply Forall_cons in Hlt as [Hrow Hlt]. simpl in H.
  apply bind_Panic in H as [H | (p & Hp & H)].
  { exists row. split; [by apply elem_of_cons; left | done]. }
  apply bind_Panic in H as [H | (st1 & Hst & H)].
  { unfold slice_set in H. apply Nat.ltb_lt in Hrow. by rewrite Hrow in H. }
  destruct (IH _ H Hlt) as (row' & Hin & Hb).
  exists row'. split; [by apply elem_of_cons; right | done].
Qed.

Section PipelineFacts.

Context (int_indefinite : float64 -> Z)
        (DistanceMx' : string -> Dense -> checked Dense)
        (Distance' : string -> Vector -> Vector -> checked float64)
        (GridCoords' : string -> list Z -> checked Dense).

Local Abbreviation build := (buildElems int_indefinite DistanceMx' Distance' GridCoords').
Local Abbreviation unit_polygon := (unitPolygon int_indefinite Distance').
Local Abbreviation avg_distance := (avgDistanceOf Distance').

(** What a successful run of lines 43-113 went through. *)
Lemma buildElems_Ok (codebook : Dense) (coordsDims : list Z)
    (uShape title : string) (doc : list elem * store) :
  build codebook coordsDims uShape title = Ok doc ->
  exists (distMat coords coordsDistMat : Dense) (maxDistance : float64)
         (cols_ rows_ : Z) (st : store),
    DistanceMx' "euclidean" codebook = inl distMat /\
    GridCoords' uShape coordsDims = inl coords /\
    DistanceMx' "euclidean" coords = inl coordsDistMat /\
    Max distMat = Ok maxDistance /\
    coordsDims !! 1%nat = Some cols_ /\
    coordsDims !! 0%nat = Some rows_ /\
    forRows (unit_polygon codebook coords coordsDistMat maxDistance uShape)
      (mkSlice 0 (length codebook)) (seq 0 (length codebook))
      (replicate (length codebook) (mkPolygon "" "")) = Ok st /\
    doc = ([Eh1 (mkH1 title);
            Esvg (mkSvgElement (f64_of_int cols_ * MUL + 2 * OFF)%float
                               (f64_of_int rows_ * MUL + 2 * OFF)%float
                               (mkSlice 0 (length codebook)))], st).
Proof.
  unfold buildElems. intros H.
  bind_inv H. apply try_Ok in Ha. rename a into distMat.
  bind_inv H. apply try_Ok in Ha0. rename a into coords.
  bind_inv H. apply try_Ok in Ha1. rename a into coordsDistMat.
  bind_inv H. rename a into maxDistance.
  bind_inv H. rename a into cols_.
  bind_inv H. rename a into rows_.
  simpl in H. bind_inv H. rename a into st. injection H as <-.
  exists distMat, coords, coordsDistMat, maxDistance, cols_, rows_, st.
  unfold index in Ha3, Ha4.
  destruct (coordsDims !! 1%nat) eqn:E1; [|discriminate].
  destruct (coordsDims !! 0%nat) eqn:E0; [|discriminate].
  injection Ha3 as ->. injection Ha4 as ->.
  repeat split; done.
Qed.

(** In a document that was built, the polygon of unit [row] is the one the
    loop body computed for [row]. *)
Lemma buildElems_polygon (codebook : Dense) (coordsDims : list Z)
    (uShape title : string) (doc : list elem * store) (row : nat) :
  build codebook coordsDims uShape title = Ok doc ->
  (row < length codebook)%nat ->
  exists (distMat coords coordsDistMat : Dense) (maxDistance : float64)
         (p : polygon),
    DistanceMx' "euclidean" codebook = inl distMat /\
    GridCoords' uShape coordsDims = inl coords /\
    DistanceMx' "euclidean" coords = inl coordsDistMat /\
    Max distMat = Ok maxDistance /\
    unit_polygon codebook coords coordsDistMat maxDistance uShape row = Ok p /\
    polygonsOf doc !! row = Some p /\
    length (polygonsOf doc) = length codebook.
Proof.
  intros H Hrow.
  destruct (buildElems_Ok _ _ _ _ _ H)
    as (distMat & coords & coordsDistMat & maxDistance & cols_ & rows_ & st
        & HdistMat & Hcoords & HcoordsDistMat & Hmax & _ & _ & Hloop & ->).
  apply forRows_Ok in Hloop as (Hlen & Hin & _).
  - destruct (Hin row) as (_ & p & Hp & Hst).
    { apply elem_of_seq. lia. }
    rewrite length_replicate in Hlen.
    assert (Hpoly : forall e, polygonsOf ([Eh1 (mkH1 title); Esvg e], st)
                              = slice_elems (Polygons e) st).
    { intros e. unfold polygonsOf. simpl. by rewrite app_nil_r. }
    exists distMat, coords, coordsDistMat, maxDistance, p.
    rewrite Hpoly. unfold slice_elems. simpl. rewrite drop_0.
    rewrite firstn_all2 by lia.
    repeat split; done.
  - apply NoDup_seq.
  - rewrite length_replicate. simpl. lia.
Qed.


Lemma append_empty_r (s : string) : s +:+ "" = s.
Proof. induction s as [|c s IH]; simpl; [done | by rewrite IH]. Qed.

Lemma polygonCoordsOf_Ok (uShape : string) (coord : Vector) (pc : string) :
  polygonCoordsOf uShape coord = Ok pc ->
  exists cx cy : float64,
    coord !! 0%nat = Some cx /\ coord !! 1%nat = Some cy /\
    pc = sprintPoints (closedOutline (scale cx) (scale cy)
                         (0.5 * MUL)%float (yOffsetOf uShape)).
Proof.
  unfold polygonCoordsOf. intros H.
  bind_inv H. rename a into cx. bind_inv H. rename a into cy.
  apply At_Ok in Ha, Ha0. injection H as <-.
  exists cx, cy. repeat split; try done.
  unfold sprintPoints, closedOutline, xOffsetOf. simpl.
  by rewrite append_empty_r.
Qed.

(** What the loop body computed when it returned a polygon. *)
Lemma unitPolygon_Ok (codebook coords coordsDistMat : Dense)
    (maxDistance : float64) (uShape : string) (row : nat) (p : polygon) :
  unit_polygon codebook coords coordsDistMat maxDistance uShape row = Ok p ->
  exists (coord : Vector) (d : float64),
    coords !! row = Some coord /\
    avg_distance codebook coordsDistMat row = Ok d /\
    polygonCoordsOf uShape coord = Ok (Points p) /\
    Style p = styleOf (colorOf int_indefinite maxDistance d).
Proof.
  unfold unitPolygon. intros H.
  bind_inv H. rename a into coord. apply RowView_Ok in Ha.
  bind_inv H. rename a into d.
  bind_inv H. rename a into pc. injection H as <-.
  exists coord, d. repeat split; done.
Qed.

(** C7. In a document that was built, the polygon of every unit is the
    closed outline of five points (the first repeated as the last) around
    the unit's scaled grid position [(x, y)]: its horizontal half-extent is
    [0.5 * scale]; its vertical half-extent is [0.5 * scale] too, except for
    the hexagonal topology, where it is [sqrt 0.75 / 2 * scale]. *)
Theorem polygon_outline (codebook : Dense) (coordsDims : list Z)
    (uShape title : string) (doc : list elem * store) (row : nat) :
  build codebook coordsDims uShape title = Ok doc ->
  (row < length codebook)%nat ->
  exists (coords : Dense) (coord : Vector) (cx cy : float64) (p : polygon),
    GridCoords' uShape coordsDims = inl coords /\
    coords !! row = Some coord /\
    coord !! 0%nat = Some cx /\ coord !! 1%nat = Some cy /\
    polygonsOf doc !! row = Some p /\
    let x := scale cx in
    let y := scale cy in
    let hx := (0.5 * MUL)%float in
    let hy := if String.eqb uShape "hexagon"
              then (sqrt 0.75 / 2 * MUL)%float else (0.5 * MUL)%float in
    let outline := closedOutline x y hx hy in
    Points p = sprintPoints outline /\
    length outline = 5%nat /\
    head outline = last outline.
Proof.
  intros H Hrow.
  destruct (buildElems_polygon _ _ _ _ _ _ H Hrow)
    as (distMat & coords & coordsDistMat & maxDistance & p
        & _ & Hcoords & _ & _ & Hp & Hdoc & _).
  apply unitPolygon_Ok in Hp as (coord & d & Hcoord & _ & Hpc & _).
  apply polygonCoordsOf_Ok in Hpc as (cx & cy & Hcx & Hcy & Hpts).
  exists coords, coord, cx, cy, p. repeat split; done.
Qed.

(** C8. In a document that was built, the [svg] element's width is
    [cols * 20 + 2 * 10] and its height [rows * 20 + 2 * 10], for
    [coordsDims = [rows, cols]], and these are the values of its [width] and
    [height] attributes. *)
Theorem canvas_size (codebook : Dense) (coordsDims : list Z)
    (uShape title : string) (doc : list elem * store) :
  build codebook coordsDims uShape title = Ok doc ->
  exists (rows cols : Z) (svgElem : svgElement) (polygons : list xml_node),
    coordsDims !! 0%nat = Some rows /\
    coordsDims !! 1%nat = Some cols /\
    doc.1 = [Eh1 (mkH1 title); Esvg svgElem] /\
    Width svgElem = (f64_of_int cols * 20 + 2 * 10)%float /\
    Height svgElem = (f64_of_int rows * 20 + 2 * 10)%float /\
    marshal doc.2 doc.1 =
      [Element "h1" [] title [];
       Element "svg" [("width", AttrFloat64 (Width svgElem));
                      ("height", AttrFloat64 (Height svgElem))] "" polygons].
Proof.
  intros H.
  destruct (buildElems_Ok _ _ _ _ _ H)
    as (distMat & coords & coordsDistMat & maxDistance & cols_ & rows_ & st
        & _ & _ & _ & _ & Hcols & Hrows & _ & ->).
  eexists rows_, cols_, _, _. repeat split; done.
Qed.

(** On maps of fewer than 4096 rows or columns the float arithmetic of
    lines 69-70 is exact: the extent is the integer [20 * n + 20]. *)
Lemma canvas_extent_exact (n : nat) :
  (n < 4096)%nat ->
  (f64_of_int (Z.of_nat n) * 20 + 2 * 10)%float
  = f64_of_int (20 * Z.of_nat n + 20).
Proof.
  intros Hn.
  assert (Hall : forallb (fun k : nat =>
                   Leibniz.eqb (f64_of_int (Z.of_nat k) * 20 + 2 * 10)%float
                               (f64_of_int (20 * Z.of_nat k + 20)))
                   (seq 0 4096) = true) by (vm_compute; reflexivity).
  rewrite forallb_forall in Hall.
  apply Leibniz.eqb_spec, Hall, in_seq. lia.
Qed.

(** C4, as the code has it. In a document that was built, the intensity in
    the fill colour of unit [row] is [(1 - d / D_max) * 255] with its
    fraction cut off (rounded toward zero, not to the nearest integer),
    whenever that integer fits an [int]; [d] is the unit's aggregated
    dissimilarity and [D_max] the largest entry of the weight-space distance
    matrix. *)
Theorem color_truncated (codebook : Dense) (coordsDims : list Z)
    (uShape title : string) (doc : list elem * store) (row : nat) :
  build codebook coordsDims uShape title = Ok doc ->
  (row < length codebook)%nat ->
  exists (distMat coords coordsDistMat : Dense) (dmax d : float64) (p : polygon),
    DistanceMx' "euclidean" codebook = inl distMat /\
    GridCoords' uShape coordsDims = inl coords /\
    DistanceMx' "euclidean" coords = inl coordsDistMat /\
    Max distMat = Ok dmax /\
    avg_distance codebook coordsDistMat row = Ok d /\
    polygonsOf doc !! row = Some p /\
    forall z : Z,
      trunc_float ((1 - d / dmax) * 255)%float = Some z -> in_int z = true ->
      Style p = styleOf z.
Proof.
  intros H Hrow.
  destruct (buildElems_polygon _ _ _ _ _ _ H Hrow)
    as (distMat & coords & coordsDistMat & maxDistance & p
        & HdistMat & Hcoords & HcoordsDistMat & Hmax & Hp & Hdoc & _).
  apply unitPolygon_Ok in Hp as (coord & d & _ & Hd & _ & Hstyle).
  exists distMat, coords, coordsDistMat, maxDistance, d, p.
  repeat split; try done.
  intros z Hz Hfit. rewrite Hstyle. unfold colorOf, int_of_f64.
  by rewrite Hz, Hfit.
Qed.

End PipelineFacts.

(** Instances on concrete maps. *)

(** The polygon of unit 2 on a 2 x 2 hexagonal grid. *)
Lemma polygon_outline_witness :
  exists doc : list elem * store,
    buildElems_amd64 squareCodebook [2; 2] "hexagon" "" = Ok doc /\
    exists (coords : Dense) (coord : Vector) (cx cy : float64) (p : polygon),
      GridCoords "hexagon" [2; 2] = inl coords /\
      coords !! 2%nat = Some coord /\
      coord !! 0%nat = Some cx /\ coord !! 1%nat = Some cy /\
      polygonsOf doc !! 2%nat = Some p /\
      let x := scale cx in
      let y := scale cy in
      let hx := (0.5 * MUL)%float in
      let hy := if String.eqb "hexagon" "hexagon"
                then (sqrt 0.75 / 2 * MUL)%float else (0.5 * MUL)%float in
      let outline := closedOutline x y hx hy in
      Points p = sprintPoints outline /\
      length outline = 5%nat /\
      head outline = last outline.
Proof.
  eexists. split; [reflexivity|].
  apply (polygon_outline amd64_indefinite DistanceMx Distance GridCoords
           squareCodebook [2; 2] "hexagon" "").
  - reflexivity.
  - simpl. lia.
Defined.

(** The canvas of a grid of 2 rows and 3 columns. *)
Lemma canvas_size_witness :
  exists doc : list elem * store,
    buildElems_amd64 (squareCodebook ++ [[2; 0]; [2; 1]]%float) [2; 3]
      "rectangle" "U-Matrix" = Ok doc /\
    exists (rows cols : Z) (svgElem : svgElement) (polygons : list xml_node),
      [2; 3] !! 0%nat = Some rows /\
      [2; 3] !! 1%nat = Some cols /\
      doc.1 = [Eh1 (mkH1 "U-Matrix"); Esvg svgElem] /\
      Width svgElem = (f64_of_int cols * 20 + 2 * 10)%float /\
      Height svgElem = (f64_of_int rows * 20 + 2 * 10)%float /\
      marshal doc.2 doc.1 =
        [Element "h1" [] "U-Matrix" [];
         Element "svg" [("width", AttrFloat64 (Width svgElem));
                        ("height", AttrFloat64 (Height svgElem))] "" polygons].
Proof.
  eexists. split; [reflexivity|].
  apply (canvas_size amd64_indefinite DistanceMx Distance GridCoords
           (squareCodebook ++ [[2; 0]; [2; 1]]%float) [2; 3] "rectangle"
           "U-Matrix").
  reflexivity.
Defined.

(** Unit 0 of the 2 x 2 scenario. *)
Lemma color_truncated_witness :
  exists doc : list elem * store,
    buildElems_amd64 squareCodebook [2; 2] "rectangle" "" = Ok doc /\
    exists (distMat coords coordsDistMat : Dense) (dmax d : float64) (p : polygon),
      DistanceMx "euclidean" squareCodebook = inl distMat /\
      GridCoords "rectangle" [2; 2] = inl coords /\
      DistanceMx "euclidean" coords = inl coordsDistMat /\
      Max distMat = Ok dmax /\
      avgDistanceOf Distance squareCodebook coordsDistMat 0 = Ok d /\
      polygonsOf doc !! 0%nat = Some p /\
      forall z : Z,
        trunc_float ((1 - d / dmax) * 255)%float = Some z -> in_int z = true ->
        Style p = styleOf z.
Proof.
  eexists. split; [reflexivity|].
  apply (color_truncated amd64_indefinite DistanceMx Distance GridCoords
           squareCodebook [2; 2] "rectangle" "").
  - reflexivity.
  - simpl. lia.
Defined.

(** ** NaN *)

Lemma Prim2SF_nan_inv (f : float64) : Prim2SF f = S754_nan -> f = nan.
Proof. intros H. apply Prim2SF_inj. by rewrite H. Qed.

(** NaN propagates through line 92, whatever [maxDistance] is. *)
Lemma intensity_of_nan (maxDistance : float64) :
  ((1 - nan / maxDistance) * 255)%float = nan.
Proof.
  apply Prim2SF_nan_inv.
  rewrite mul_spec, sub_spec, div_spec.
  reflexivity.
Qed.

Lemma colorOf_nan (indefinite : float64 -> Z) (maxDistance : float64) :
  colorOf indefinite maxDistance nan = indefinite nan.
Proof. unfold colorOf. by rewrite intensity_of_nan. Qed.

(** [trunc_float] cuts the fraction off: on [m * 2^e] with [e < 0] it is
    the quotient of [m] by [2^-e], with the sign put back. *)
Lemma trunc_float_finite (f : float64) (s : bool) (m : positive) (e : Z) :
  Prim2SF f = S754_finite s m e -> e < 0 ->
  exists a : Z,
    trunc_float f = Some (if s then - a else a) /\
    a * 2 ^ (- e) <= Z.pos m < (a + 1) * 2 ^ (- e).
Proof.
  intros Hf He. exists (Z.pos m / 2 ^ (- e)).
  unfold trunc_float. rewrite Hf.
  destruct (Z.leb_spec 0 e) as [?|_]; [lia|]. split; [done|].
  assert (0 < 2 ^ (- e)) by (apply Z.pow_pos_nonneg; lia).
  pose proof (Z.mul_div_le (Z.pos m) (2 ^ (- e)) ltac:(done)).
  pose proof (Z.mul_succ_div_gt (Z.pos m) (2 ^ (- e)) ltac:(done)).
  lia.
Qed.

(** With a maximum that compares equal to 0, line 92 yields a NaN or an
    infinity, whatever the aggregated dissimilarity is. *)
Lemma intensity_not_finite (d dmax : float64) :
  (dmax =? 0)%float = true ->
  trunc_float ((1 - d / dmax) * 255)%float = None.
Proof.
  intros [s Hs]%eqb_zero_inv. unfold trunc_float.
  rewrite mul_spec, sub_spec, div_spec, Hs.
  destruct (Prim2SF d) as [sd|sd| |sd m e]; destruct s; try destruct sd;
    reflexivity.
Qed.

Lemma int_of_f64_not_finite (indefinite : float64 -> Z) (v : float64) :
  trunc_float v = None -> int_of_f64 indefinite v = indefinite v.
Proof. unfold int_of_f64. by intros ->. Qed.

Section Degenerate.

Context (int_indefinite : float64 -> Z)
        (DistanceMx' : string -> Dense -> checked Dense)
        (Distance' : string -> Vector -> Vector -> checked float64)
        (GridCoords' : string -> list Z -> checked Dense).

Local Abbreviation build := (buildElems int_indefinite DistanceMx' Distance' GridCoords').

(** The aggregated dissimilarity of a unit whose neighbour set holds only
    the unit itself is 0 / 0. *)
Lemma avgDistanceOf_isolated (codebook coordsDistMat : Dense) (row : nat)
    (d0 : float64) :
  (row < length codebook)%nat ->
  allRowsInRadius row neighbourRadius coordsDistMat = Ok [mkRowWithDist row d0] ->
  (d0 =? 0)%float = true ->
  avgDistanceOf Distance' codebook coordsDistMat row = Ok nan.
Proof.
  intros Hrow Hnb Hz. unfold avgDistanceOf.
  destruct (RowView_lt codebook row Hrow) as (cbVec & -> & _).
  simpl. rewrite Hnb. simpl.
  by rewrite (zero_not_positive _ Hz).
Qed.

(** C2, on the code. In a document that was built, a unit whose neighbour
    set holds only the unit itself (at distance 0) has the aggregated
    dissimilarity 0 / 0, a NaN, and the intensity written into its fill
    colour is whatever the platform makes of [int(NaN)]: the code does not
    define it. *)
Theorem isolated_unit_nan (codebook : Dense) (coordsDims : list Z)
    (uShape title : string) (doc : list elem * store)
    (coords coordsDistMat : Dense) (row : nat) (d0 : float64) :
  build codebook coordsDims uShape title = Ok doc ->
  (row < length codebook)%nat ->
  GridCoords' uShape coordsDims = inl coords ->
  DistanceMx' "euclidean" coords = inl coordsDistMat ->
  allRowsInRadius row neighbourRadius coordsDistMat = Ok [mkRowWithDist row d0] ->
  (d0 =? 0)%float = true ->
  avgDistanceOf Distance' codebook coordsDistMat row = Ok nan /\
  exists p : polygon,
    polygonsOf doc !! row = Some p /\
    Style p = styleOf (int_indefinite nan).
Proof.
  intros H Hrow Hcoords HcoordsDistMat Hnb Hz.
  pose proof (avgDistanceOf_isolated _ _ _ _ Hrow Hnb Hz) as Havg.
  split; [exact Havg|].
  destruct (buildElems_polygon _ _ _ _ _ _ _ _ _ _ H Hrow)
    as (distMat & coords' & coordsDistMat' & maxDistance & p
        & _ & Hcoords' & HcoordsDistMat' & _ & Hp & Hdoc & _).
  rewrite Hcoords in Hcoords'. injection Hcoords' as <-.
  rewrite HcoordsDistMat in HcoordsDistMat'. injection HcoordsDistMat' as <-.
  apply unitPolygon_Ok in Hp as (coord & d & _ & Hd & _ & Hstyle).
  rewrite Havg in Hd. injection Hd as <-.
  exists p. split; [done|]. by rewrite Hstyle, colorOf_nan.
Qed.

(** C3, on the code. When the largest weight-space distance compares equal
    to 0 and the document is built, the intensity written for every unit is
    the platform's conversion of a value that is a NaN or an infinity: no
    error is returned and no fallback is applied. *)
Theorem degenerate_codebook_undefined (codebook : Dense) (coordsDims : list Z)
    (uShape title : string) (doc : list elem * store)
    (distMat : Dense) (dmax : float64) (row : nat) :
  build codebook coordsDims uShape title = Ok doc ->
  DistanceMx' "euclidean" codebook = inl distMat ->
  Max distMat = Ok dmax ->
  (dmax =? 0)%float = true ->
  (row < length codebook)%nat ->
  exists (p : polygon) (v : float64),
    polygonsOf doc !! row = Some p /\
    trunc_float v = None /\
    Style p = styleOf (int_indefinite v).
Proof.
  intros H HdistMat Hmax Hz Hrow.
  destruct (buildElems_polygon _ _ _ _ _ _ _ _ _ _ H Hrow)
    as (distMat' & coords & coordsDistMat & maxDistance & p
        & HdistMat' & _ & _ & Hmax' & Hp & Hdoc & _).
  rewrite HdistMat in HdistMat'. injection HdistMat' as <-.
  rewrite Hmax in Hmax'. injection Hmax' as <-.
  apply unitPolygon_Ok in Hp as (coord & d & _ & Hd & _ & Hstyle).
  exists p, ((1 - d / dmax) * 255)%float.
  split; [done|]. split; [by apply intensity_not_finite|].
  rewrite Hstyle. unfold colorOf.
  by rewrite int_of_f64_not_finite by (by apply intensity_not_finite).
Qed.

End Degenerate.

(** ** Concrete runs *)

(** The one-unit map on gc/amd64. *)
Lemma isolated_unit_nan_witness :
  exists doc : list elem * store,
    buildElems_amd64 singleCodebook [1; 1] "rectangle" "" = Ok doc /\
    avgDistanceOf Distance singleCodebook [[0%float]] 0 = Ok nan /\
    exists p : polygon,
      polygonsOf doc !! 0%nat = Some p /\
      Style p = styleOf (amd64_indefinite nan).
Proof.
  eexists. split; [reflexivity|].
  apply (isolated_unit_nan amd64_indefinite DistanceMx Distance GridCoords
           singleCodebook [1; 1] "rectangle" "" _ [[0; 0]]%float [[0%float]]
           0%nat 0%float); try reflexivity.
  simpl. lia.
Defined.

(** Unit 3 of the four units with the same weights, on gc/amd64; the call
    returns [nil]. *)
Lemma degenerate_codebook_undefined_witness :
  exists doc : list elem * store,
    buildElems_amd64 flatCodebook [2; 2] "rectangle" "" = Ok doc /\
    UMatrixSVG_amd64 bufferWrite flatCodebook [2; 2] "rectangle" "" []
      = (Ok tt, [marshal doc.2 doc.1]) /\
    exists (p : polygon) (v : float64),
      polygonsOf doc !! 3%nat = Some p /\
      trunc_float v = None /\
      Style p = styleOf (amd64_indefinite v).
Proof.
  eexists. split; [reflexivity|]. split; [reflexivity|].
  apply (degenerate_codebook_undefined amd64_indefinite DistanceMx Distance
           GridCoords flatCodebook [2; 2] "rectangle" "" _
           (replicate 4 (replicate 4 0%float)) 0%float 3%nat);
    try reflexivity.
  simpl. lia.
Defined.

(** C5, on the code. On gc/amd64 the intensity written into the fill
    colour is -9223372036854775808, outside [0, 255], for the one unit of
    the one-unit map and for each of the four units with the same weights;
    both calls return [nil]. *)
Theorem intensity_out_of_range :
  exists doc1 doc4 : list elem * store,
    buildElems_amd64 singleCodebook [1; 1] "rectangle" "" = Ok doc1 /\
    UMatrixSVG_amd64 bufferWrite singleCodebook [1; 1] "rectangle" "" []
      = (Ok tt, [marshal doc1.2 doc1.1]) /\
    Style <$> polygonsOf doc1 = [styleOf min_int] /\
    buildElems_amd64 flatCodebook [2; 2] "rectangle" "" = Ok doc4 /\
    UMatrixSVG_amd64 bufferWrite flatCodebook [2; 2] "rectangle" "" []
      = (Ok tt, [marshal doc4.2 doc4.1]) /\
    Style <$> polygonsOf doc4 = replicate 4 (styleOf min_int) /\
    styleOf min_int =
      "fill:rgb(-9223372036854775808,-9223372036854775808,-9223372036854775808);stroke:black;stroke-width:1" /\
    (min_int <? 0) = true.
Proof. do 2 eexists. repeat (split; [reflexivity|]). reflexivity. Qed.

(** C4, as the specification words it, fails: in the 2 x 2 scenario unit 0
    has [d = (1 + 1 + sqrt 2) / 3] and [D_max = sqrt 2 > 0]; the value
    [(1 - d / D_max) * 255] is about 49.79, which rounds to 50, and the
    colour written is 49. *)
Lemma color_not_rounded :
  exists (distMat coords coordsDistMat : Dense) (dmax d : float64)
         (doc : list elem * store),
    DistanceMx "euclidean" squareCodebook = inl distMat /\
    GridCoords "rectangle" [2; 2] = inl coords /\
    DistanceMx "euclidean" coords = inl coordsDistMat /\
    Max distMat = Ok dmax /\
    (0 <? dmax)%float = true /\
    avgDistanceOf Distance squareCodebook coordsDistMat 0 = Ok d /\
    round_float ((1 - d / dmax) * 255)%float = Some 50 /\
    trunc_float ((1 - d / dmax) * 255)%float = Some 49 /\
    buildElems_amd64 squareCodebook [2; 2] "rectangle" "" = Ok doc /\
    Style <$> polygonsOf doc !! 0%nat = Some (styleOf 49).
Proof.
  do 6 eexists.
  repeat (split; [reflexivity|]). reflexivity.
Qed.

(** ** The sink *)

Section SinkFacts.

Context (int_indefinite : float64 -> Z)
        (DistanceMx' : string -> Dense -> checked Dense)
        (Distance' : string -> Vector -> Vector -> checked float64)
        (GridCoords' : string -> list Z -> checked Dense)
        (bytes : Type) (xmlWrites : list xml_node -> list bytes).

Local Abbreviation build := (buildElems int_indefinite DistanceMx' Distance' GridCoords').
Local Abbreviation run :=
  (UMatrixSVG int_indefinite DistanceMx' Distance' GridCoords' bytes xmlWrites).

(** A call that got to line 115 hands the slices of the document to the
    sink, up to the first write that fails, and returns [nil] whatever the
    sink answered. *)
Lemma UMatrixSVG_built (W : Type) (Write : W -> bytes -> W * option error)
    (codebook : Dense) (coordsDims : list Z) (uShape title : string)
    (elems : list elem) (st : store) (w : W) :
  build codebook coordsDims uShape title = Ok (elems, st) ->
  run W Write codebook coordsDims uShape title w
  = (Ok tt, (writeAll bytes W Write w (xmlWrites (marshal st elems))).1).
Proof.
  intros H. unfold UMatrixSVG. rewrite H. unfold Encode, NewEncoder. simpl.
  by destruct (writeAll bytes W Write w (xmlWrites (marshal st elems))).
Qed.

(** A call that did not get there leaves the sink alone. *)
Lemma UMatrixSVG_not_built (W : Type) (Write : W -> bytes -> W * option error)
    (codebook : Dense) (coordsDims : list Z) (uShape title : string) (w : W) :
  (forall doc, build codebook coordsDims uShape title <> Ok doc) ->
  (run W Write codebook coordsDims uShape title w).2 = w.
Proof.
  intros H. unfold UMatrixSVG.
  destruct (build codebook coordsDims uShape title) as [doc| |] eqn:E; try done.
  by destruct (H doc).
Qed.

(** C1, on the code. When the document was built and the sink rejects a
    write with an error [e] (the first write or, for a text of more than
    4096 bytes, a later one), [UMatrixSVG] still returns [nil]: the error is
    dropped. *)
Theorem write_error_discarded (W : Type) (Write : W -> bytes -> W * option error)
    (codebook : Dense) (coordsDims : list Z) (uShape title : string)
    (elems : list elem) (st : store) (w w' : W) (e : error) :
  build codebook coordsDims uShape title = Ok (elems, st) ->
  writeAll bytes W Write w (xmlWrites (marshal st elems)) = (w', Some e) ->
  run W Write codebook coordsDims uShape title w = (Ok tt, w').
Proof.
  intros H Hw. rewrite (UMatrixSVG_built _ _ _ _ _ _ _ _ _ H). by rewrite Hw.
Qed.

End SinkFacts.

(** The 2 x 2 scenario into a sink that rejects every write. *)
Lemma write_error_discarded_witness :
  exists doc : list elem * store,
    buildElems_amd64 squareCodebook [2; 2] "rectangle" "U-Matrix" = Ok doc /\
    writeAll (list xml_node) (list (list xml_node)) brokenWrite []
      [marshal doc.2 doc.1] = ([], Some "write: broken pipe") /\
    UMatrixSVG_amd64 brokenWrite squareCodebook [2; 2] "rectangle" "U-Matrix" []
    = (Ok tt, []).
Proof.
  eexists. split; [reflexivity|]. split; [reflexivity|].
  eapply (write_error_discarded amd64_indefinite DistanceMx Distance GridCoords
            (list xml_node) (fun nodes => [nodes]) (list (list xml_node))
            brokenWrite squareCodebook [2; 2] "rectangle" "U-Matrix");
    reflexivity.
Defined.

(** ** Bounds of the accesses *)

Section Bounds.

Context (int_indefinite : float64 -> Z)
        (DistanceMx' : string -> Dense -> checked Dense)
        (Distance' : string -> Vector -> Vector -> checked float64)
        (GridCoords' : string -> list Z -> checked Dense).

Local Abbreviation build := (buildElems int_indefinite DistanceMx' Distance' GridCoords').

Lemma sumNeighbours_no_panic (codebook : Dense) (cbVec : Vector) (pn : panic) :
  forall (rwds : list rowWithDist) (acc : float64),
    Forall (fun rwd => (Row rwd < length codebook)%nat) rwds ->
    sumNeighbours Distance' codebook cbVec rwds acc <> Panic pn.
Proof.
  induction rwds as [|rwd rest IH]; intros acc Hlt; [done|].
  apply Forall_cons in Hlt as [Hrow Hlt]. simpl.
  destruct (0 <? Dist rwd)%float; [|by apply IH].
  destruct (RowView_lt codebook (Row rwd) Hrow) as (otherMu & -> & _). simpl.
  destruct (Distance' "euclidean" cbVec otherMu) as [d|e]; simpl; [|done].
  by apply IH.
Qed.

Lemma avgDistanceOf_no_panic (codebook coordsDistMat : Dense) (row : nat)
    (pn : panic) :
  (row < length codebook)%nat ->
  has_shape (length codebook) (length codebook) coordsDistMat ->
  avgDistanceOf Distance' codebook coordsDistMat row <> Panic pn.
Proof.
  intros Hrow [Hlen Hcols]. unfold avgDistanceOf.
  destruct (RowView_lt codebook row Hrow) as (cbVec & -> & _). simpl.
  unfold allRowsInRadius.
  destruct (RowView_lt coordsDistMat row) as (dists & -> & Hd); [lia|]. simpl.
  destruct (sumNeighbours Distance' codebook cbVec
              (rangeRow neighbourRadius 0 dists []) 0%float) eqn:E; try done.
  exfalso. revert E. apply sumNeighbours_no_panic.
  rewrite Forall_forall in Hcols.
  rewrite <- (Hcols dists) by (by eapply list_elem_of_lookup_2).
  apply (rangeRow_rows_lt neighbourRadius dists 0).
Qed.

Lemma unitPolygon_no_panic (codebook coords coordsDistMat : Dense)
    (maxDistance : float64) (uShape : string) (row : nat) (pn : panic) :
  (row < length codebook)%nat ->
  has_shape (length codebook) 2 coords ->
  has_shape (length codebook) (length codebook) coordsDistMat ->
  unitPolygon int_indefinite Distance' codebook coords coordsDistMat
    maxDistance uShape row <> Panic pn.
Proof.
  intros Hrow [Hlen Hcols] Hdist. unfold unitPolygon.
  destruct (RowView_lt coords row) as (coord & -> & Hcoord); [lia|]. simpl.
  pose proof (avgDistanceOf_no_panic codebook coordsDistMat row pn Hrow Hdist) as Havg.
  destruct (avgDistanceOf Distance' codebook coordsDistMat row) as [d|e|p];
    simpl; [|done|intros [= ->]; by apply Havg].
  rewrite Forall_forall in Hcols.
  assert (Hc : length coord = 2%nat) by (by eapply Hcols, list_elem_of_lookup_2).
  by destruct coord as [|cx [|cy [|? ?]]].
Qed.

(** Where a panic of lines 43-113 comes from. *)
Lemma buildElems_Panic (codebook : Dense) (coordsDims : list Z)
    (uShape title : string) (pn : panic) :
  build codebook coordsDims uShape title = Panic pn ->
  exists (distMat coords coordsDistMat : Dense),
    DistanceMx' "euclidean" codebook = inl distMat /\
    GridCoords' uShape coordsDims = inl coords /\
    DistanceMx' "euclidean" coords = inl coordsDistMat /\
    (Max distMat = Panic pn \/
     exists maxDistance : float64, Max distMat = Ok maxDistance /\
       ((length coordsDims < 2)%nat /\ pn = IndexOutOfRange \/
        exists row : nat, (row < length codebook)%nat /\
          unitPolygon int_indefinite Distance' codebook coords coordsDistMat
            maxDistance uShape row = Panic pn)).
Proof.
  unfold buildElems. intros H.
  apply bind_Panic in H as [H | (distMat & E1 & H)]; [by apply try_not_Panic in H|].
  apply bind_Panic in H as [H | (coords & E2 & H)]; [by apply try_not_Panic in H|].
  apply bind_Panic in H as [H | (coordsDistMat & E3 & H)];
    [by apply try_not_Panic in H|].
  apply try_Ok in E1, E2, E3.
  exists distMat, coords, coordsDistMat. repeat (split; [done|]).
  apply bind_Panic in H as [H | (maxDistance & E4 & H)]; [by left|].
  right. exists maxDistance. split; [done|].
  assert (Hindex : forall i : nat, index coordsDims i = Panic pn ->
                     (length coordsDims <= i)%nat /\ pn = IndexOutOfRange).
  { intros i. unfold index. destruct (coordsDims !! i) eqn:E; [done|].
    apply lookup_ge_None in E. intros [= <-]. done. }
  apply bind_Panic in H as [H | (cols_ & E5 & H)].
  { left. apply Hindex in H as [? ->]. split; [lia | done]. }
  apply bind_Panic in H as [H | (rows_ & E6 & H)].
  { left. apply Hindex in H as [? ->]. split; [lia | done]. }
  right. simpl in H.
  apply bind_Panic in H as [H | (st & _ & H)]; [|done].
  apply forRows_Panic in H as (row & Hin & Hrow).
  - exists row. apply elem_of_seq in Hin. split; [lia | done].
  - apply Forall_forall. intros row Hin%elem_of_seq. simpl. lia.
Qed.

End Bounds.

(** C10. Every index used by [UMatrixSVG] is in bounds provided that
    [coordsDims] has at least two entries and that the grid has as many
    coordinates as the codebook has rows (the coordinates being an N x 2
    matrix and their distance matrix N x N): then the call raises no access
    panic. The provision is needed: with fewer than two entries in
    [coordsDims] line 69 panics as soon as it is reached, and a codebook
    with more rows, or with fewer rows, than the grid has units makes a
    [RowView] panic. *)
Theorem accesses_in_bounds :
  (forall (int_indefinite : float64 -> Z)
          (DistanceMx' : string -> Dense -> checked Dense)
          (Distance' : string -> Vector -> Vector -> checked float64)
          (GridCoords' : string -> list Z -> checked Dense)
          (bytes : Type) (xmlWrites : list xml_node -> list bytes)
          (W : Type) (Write : W -> bytes -> W * option error)
          (codebook : Dense) (coordsDims : list Z) (uShape title : string)
          (w : W),
      (2 <= length coordsDims)%nat ->
      (forall coords : Dense,
          GridCoords' uShape coordsDims = inl coords ->
          has_shape (length codebook) 2 coords /\
          forall coordsDistMat : Dense,
            DistanceMx' "euclidean" coords = inl coordsDistMat ->
            has_shape (length codebook) (length codebook) coordsDistMat) ->
      in_bounds (UMatrixSVG int_indefinite DistanceMx' Distance' GridCoords'
                   bytes xmlWrites W Write codebook coordsDims uShape title w).1) /\
  (forall (int_indefinite : float64 -> Z)
          (DistanceMx' : string -> Dense -> checked Dense)
          (Distance' : string -> Vector -> Vector -> checked float64)
          (GridCoords' : string -> list Z -> checked Dense)
          (bytes : Type) (xmlWrites : list xml_node -> list bytes)
          (W : Type) (Write : W -> bytes -> W * option error)
          (codebook : Dense) (coordsDims : list Z) (uShape title : string)
          (w : W) (distMat coords coordsDistMat : Dense) (maxDistance : float64),
      (length coordsDims < 2)%nat ->
      DistanceMx' "euclidean" codebook = inl distMat ->
      GridCoords' uShape coordsDims = inl coords ->
      DistanceMx' "euclidean" coords = inl coordsDistMat ->
      Max distMat = Ok maxDistance ->
      UMatrixSVG int_indefinite DistanceMx' Distance' GridCoords' bytes xmlWrites
        W Write codebook coordsDims uShape title w
      = (Panic IndexOutOfRange, w)) /\
  UMatrixSVG_amd64 bufferWrite [[1; 1]; [1; 2]]%float [1; 1] "rectangle" "" []
  = (Panic ErrRowAccess, []) /\
  UMatrixSVG_amd64 bufferWrite [[1; 1]; [1; 2]]%float [2; 2] "rectangle" "" []
  = (Panic ErrRowAccess, []).
Proof.
  split; [|split; [|split; reflexivity]].
  - intros int_indefinite DistanceMx' Distance' GridCoords' bytes xmlWrites W Write
      codebook coordsDims uShape title w Hdims Hgrid.
    destruct (buildElems int_indefinite DistanceMx' Distance' GridCoords'
                codebook coordsDims uShape title) as [[elems st]| |pn] eqn:E.
    { by erewrite UMatrixSVG_built by exact E. }
    { unfold UMatrixSVG. by rewrite E. }
    unfold UMatrixSVG. rewrite E. simpl.
    apply buildElems_Panic in E
      as (distMat & coords & coordsDistMat & _ & Hcoords & HcoordsDistMat & E).
    destruct (Hgrid coords Hcoords) as [Hshape Hdist].
    specialize (Hdist coordsDistMat HcoordsDistMat).
    destruct E as [E | (maxDistance & _ & [[? _] | (row & Hrow & E)])].
    + unfold Max in E. destruct (Dims distMat) as [r c].
      destruct (Nat.eqb r 0 || Nat.eqb c 0)%bool; [|discriminate].
      by injection E as <-.
    + lia.
    + exfalso. revert E. by apply unitPolygon_no_panic.
  - intros int_indefinite DistanceMx' Distance' GridCoords' bytes xmlWrites W Write
      codebook coordsDims uShape title w distMat coords coordsDistMat maxDistance
      Hdims HdistMat Hcoords HcoordsDistMat Hmax.
    unfold UMatrixSVG, buildElems.
    rewrite HdistMat, Hcoords. simpl. rewrite HcoordsDistMat. simpl.
    rewrite Hmax. simpl. unfold index.
    rewrite (lookup_ge_None_2 coordsDims 1) by lia. done.
Qed.


(** The 2 x 2 scenario, and a call with a single dimension on a generator
    that accepts it. *)
Lemma accesses_in_bounds_witness :
  in_bounds
    (UMatrixSVG_amd64 bufferWrite squareCodebook [2; 2] "rectangle" "" []).1 /\
  UMatrixSVG amd64_indefinite DistanceMx Distance squareGridCoords
    (list xml_node) (fun nodes => [nodes]) (list (list xml_node)) bufferWrite
    squareCodebook [2] "rectangle" "" []
  = (Panic IndexOutOfRange, []).
Proof.
  split.
  - unfold UMatrixSVG_amd64. apply (proj1 accesses_in_bounds).
    + simpl. lia.
    + intros coords [= <-]. split.
      * split; [reflexivity | repeat constructor].
      * intros coordsDistMat [= <-]. split; [reflexivity | repeat constructor].
  - eapply (proj1 (proj2 accesses_in_bounds)).
    + simpl. lia.
    + reflexivity.
    + reflexivity.
    + reflexivity.
    + reflexivity.
Defined.

(** * Further properties of display.go *)

(** ** allRowsInRadius: order, bounds and NaN *)

Lemma rangeRow_sorted radius data : forall i : nat,
  StronglySorted lt (map Row (rangeRow radius i data [])).
Proof.
  induction data as [|x rest IH]; intros i; [constructor|].
  rewrite rangeRow_cons, map_app.
  destruct (x <? radius)%float; simpl; [|apply IH].
  constructor; [apply IH|].
  eapply Forall_impl; [apply (rangeRow_rows_ge radius rest (S i))|].
  simpl. lia.
Qed.

Lemma rangeRow_length radius data : forall i : nat,
  (length (rangeRow radius i data []) <= length data)%nat.
Proof.
  induction data as [|x rest IH]; intros i; [done|].
  rewrite rangeRow_cons, length_app. specialize (IH (S i)).
  destruct (x <? radius)%float; simpl; lia.
Qed.

(** X1. The neighbours come out in ascending order of unit index, each index
    within the row of the distance matrix, and no more of them than the row
    has entries: the divisor of line 91 is at most the number of units minus
    one. *)
Theorem allRowsInRadius_sorted (selectedRow : nat) (radius : float64)
    (distMatrix : Dense) (rwds : list rowWithDist) :
  allRowsInRadius selectedRow radius distMatrix = Ok rwds ->
  exists dists : Vector,
    distMatrix !! selectedRow = Some dists /\
    StronglySorted lt (map Row rwds) /\
    Forall (fun rwd => (Row rwd < length dists)%nat) rwds /\
    (length rwds <= length dists)%nat.
Proof.
  unfold allRowsInRadius. intros H. bind_inv H. rename a into dists.
  apply RowView_Ok in Ha. injection H as <-.
  exists dists. split; [done|]. split; [apply rangeRow_sorted|].
  split; [apply (rangeRow_rows_lt radius dists 0) | apply rangeRow_length].
Qed.

Lemma allRowsInRadius_sorted_witness :
  exists dists : Vector,
    [[0; 1; 2]; [1; 0; 1]; [2; 1; 0]]%float !! 1%nat = Some dists /\
    StronglySorted lt (map Row [mkRowWithDist 0 1; mkRowWithDist 1 0;
                                mkRowWithDist 2 1]%float) /\
    Forall (fun rwd => (Row rwd < length dists)%nat)
      [mkRowWithDist 0 1; mkRowWithDist 1 0; mkRowWithDist 2 1]%float /\
    (length [mkRowWithDist 0 1; mkRowWithDist 1 0; mkRowWithDist 2 1]%float
     <= length dists)%nat.
Proof.
  apply (allRowsInRadius_sorted 1 neighbourRadius
           [[0; 1; 2]; [1; 0; 1]; [2; 1; 0]]%float).
  reflexivity.
Defined.

Lemma ltb_nan_l (d radius : float64) :
  is_nan d = true -> (d <? radius)%float = false.
Proof.
  unfold is_nan. rewrite FloatAxioms.ltb_spec.
  destruct (Prim2SF d); try discriminate. done.
Qed.

Lemma ltb_nan_r (d radius : float64) :
  is_nan radius = true -> (d <? radius)%float = false.
Proof.
  unfold is_nan. rewrite FloatAxioms.ltb_spec.
  destruct (Prim2SF radius); try discriminate. by destruct (Prim2SF d).
Qed.

Lemma rangeRow_nan_radius radius data : forall i : nat,
  is_nan radius = true -> rangeRow radius i data [] = [].
Proof.
  induction data as [|x rest IH]; intros i Hnan; [done|].
  rewrite rangeRow_cons, (ltb_nan_r x radius Hnan). simpl. by apply IH.
Qed.

(** X2. A unit whose distance to the selected unit is a NaN is never a neighbour,
    and with a NaN radius no unit is, the selected one included. *)
Theorem allRowsInRadius_nan (selectedRow : nat) (radius : float64)
    (distMatrix : Dense) (rwds : list rowWithDist) :
  allRowsInRadius selectedRow radius distMatrix = Ok rwds ->
  Forall (fun rwd => is_nan (Dist rwd) = false) rwds /\
  (is_nan radius = true -> rwds = []).
Proof.
  unfold allRowsInRadius. intros H. bind_inv H. rename a into dists.
  injection H as <-. split.
  - apply Forall_forall. intros [j d] Hin. simpl.
    apply elem_of_rangeRow in Hin as (_ & _ & Hlt).
    destruct (is_nan d) eqn:E; [|done].
    by rewrite (ltb_nan_l d radius E) in Hlt.
  - by apply rangeRow_nan_radius.
Qed.

Lemma allRowsInRadius_nan_witness :
  Forall (fun rwd => is_nan (Dist rwd) = false) [mkRowWithDist 1 0%float] /\
  (is_nan neighbourRadius = true -> [mkRowWithDist 1 0%float] = []).
Proof.
  apply (allRowsInRadius_nan 1 neighbourRadius [[0; nan]; [nan; 0]]%float).
  reflexivity.
Defined.

(** ** UMatrixSVG: when it returns, what it writes, how it fails *)

Lemma forRows_app (body : nat -> result polygon) (s : slice) :
  forall (todo1 todo2 : list nat) (st : store),
    forRows body s (todo1 ++ todo2) st
    = forRows body s todo1 st ≫= forRows body s todo2.
Proof.
  induction todo1 as [|row rest IH]; intros todo2 st; [done|].
  simpl. destruct (body row) as [p| |]; simpl; try done.
  destruct (slice_set s row p st) as [st1| |]; simpl; try done.
Qed.

(** The loop completes when its body returns a polygon for every row and the
    rows are within the slice. *)
Lemma forRows_complete (body : nat -> result polygon) (s : slice) :
  forall (todo : list nat) (st : store),
    Forall (fun row => (row < len s)%nat /\ exists p, body row = Ok p) todo ->
    exists st' : store, forRows body s todo st = Ok st'.
Proof.
  induction todo as [|row rest IH]; intros st Hall; [by exists st|].
  apply Forall_cons in Hall as [[Hrow [p Hp]] Hall]. simpl.
  rewrite Hp. simpl. unfold slice_set.
  apply Nat.ltb_lt in Hrow. rewrite Hrow. simpl. by apply IH.
Qed.

Section Outcomes.

Context (int_indefinite : float64 -> Z)
        (DistanceMx' : string -> Dense -> checked Dense)
        (Distance' : string -> Vector -> Vector -> checked float64)
        (GridCoords' : string -> list Z -> checked Dense)
        (bytes : Type) (xmlWrites : list xml_node -> list bytes)
        (W : Type) (Write : W -> bytes -> W * option error).

Local Abbreviation build := (buildElems int_indefinite DistanceMx' Distance' GridCoords').
Local Abbreviation run :=
  (UMatrixSVG int_indefinite DistanceMx' Distance' GridCoords' bytes xmlWrites W Write).

(** [Distance] answers every "euclidean" request. *)
Local Abbreviation Distance_total :=
  (forall a b : Vector, exists d : float64, Distance' "euclidean" a b = inl d).

Lemma sumNeighbours_total (codebook : Dense) (cbVec : Vector) :
  Distance_total ->
  forall (rwds : list rowWithDist) (acc : float64),
    Forall (fun rwd => (Row rwd < length codebook)%nat) rwds ->
    exists v : float64, sumNeighbours Distance' codebook cbVec rwds acc = Ok v.
Proof.
  intros Hdist. induction rwds as [|rwd rest IH]; intros acc Hlt; [by exists acc|].
  apply Forall_cons in Hlt as [Hrow Hlt]. simpl.
  destruct (0 <? Dist rwd)%float; [|by apply IH].
  destruct (RowView_lt codebook (Row rwd) Hrow) as (otherMu & -> & _). simpl.
  destruct (Hdist cbVec otherMu) as [d ->]. simpl. by apply IH.
Qed.

(** The body of the loop returns a polygon for every unit of the grid, as
    long as the codebook has a row for each of them. *)
Lemma unitPolygon_total (codebook coords coordsDistMat : Dense)
    (maxDistance : float64) (uShape : string) (row : nat) :
  Distance_total ->
  (length coords <= length codebook)%nat ->
  has_shape (length coords) 2 coords ->
  has_shape (length coords) (length coords) coordsDistMat ->
  (row < length coords)%nat ->
  exists p : polygon,
    unitPolygon int_indefinite Distance' codebook coords coordsDistMat
      maxDistance uShape row = Ok p.
Proof.
  intros Hdist Hle [_ Hcols] [Hlen Hsq] Hrow. unfold unitPolygon.
  destruct (RowView_lt coords row Hrow) as (coord & -> & Hcoord). simpl.
  unfold avgDistanceOf.
  destruct (RowView_lt codebook row) as (cbVec & -> & _); [lia|]. simpl.
  unfold allRowsInRadius.
  destruct (RowView_lt coordsDistMat row) as (dists & -> & Hd); [lia|]. simpl.
  rewrite Forall_forall in Hsq, Hcols.
  assert (Hn : length dists = length coords)
    by (by eapply Hsq, list_elem_of_lookup_2).
  destruct (sumNeighbours_total codebook cbVec Hdist
              (rangeRow neighbourRadius 0 dists []) 0%float) as [v ->].
  { eapply Forall_impl; [apply (rangeRow_rows_lt neighbourRadius dists 0)|].
    simpl. lia. }
  simpl.
  assert (Hc : length coord = 2%nat) by (by eapply Hcols, list_elem_of_lookup_2).
  destruct coord as [|cx [|cy [|? ?]]]; try discriminate. simpl. by eexists.
Qed.

(** X3. When the collaborators succeed with matrices of the right sizes (the
    weight-space distance matrix not empty, the grid N x 2 for a codebook of
    N rows, its distance matrix N x N), [coordsDims] has two entries and
    [Distance] answers, the call returns [nil] and the sink has been handed
    the slices of the one document, in order and up to the first write that
    fails. *)
Theorem render_succeeds (codebook : Dense) (coordsDims : list Z)
    (uShape title : string) (w : W) (distMat coords coordsDistMat : Dense)
    (maxDistance : float64) :
  (2 <= length coordsDims)%nat ->
  DistanceMx' "euclidean" codebook = inl distMat ->
  Max distMat = Ok maxDistance ->
  GridCoords' uShape coordsDims = inl coords ->
  has_shape (length codebook) 2 coords ->
  DistanceMx' "euclidean" coords = inl coordsDistMat ->
  has_shape (length codebook) (length codebook) coordsDistMat ->
  Distance_total ->
  exists (elems : list elem) (st : store),
    build codebook coordsDims uShape title = Ok (elems, st) /\
    run codebook coordsDims uShape title w
    = (Ok tt, (writeAll bytes W Write w (xmlWrites (marshal st elems))).1).
Proof.
  intros Hdims HdistMat Hmax Hcoords Hshape HcoordsDistMat Hsq Hdist.
  assert (Hn : length coords = length codebook) by apply Hshape.
  assert (Hbuild : exists doc, build codebook coordsDims uShape title = Ok doc).
  { unfold buildElems. rewrite HdistMat, Hcoords. simpl.
    rewrite HcoordsDistMat. simpl. rewrite Hmax. simpl. unfold index.
    destruct (lookup_lt_is_Some_2 coordsDims 1 ltac:(lia)) as [cols_ ->].
    destruct (lookup_lt_is_Some_2 coordsDims 0 ltac:(lia)) as [rows_ ->].
    simpl.
    destruct (forRows_complete
                (unitPolygon int_indefinite Distance' codebook coords
                   coordsDistMat maxDistance uShape)
                (mkSlice 0 (length codebook)) (seq 0 (length codebook))
                (replicate (length codebook) (mkPolygon "" ""))) as [st' ->].
    - apply Forall_forall. intros row Hin%elem_of_seq. simpl. split; [lia|].
      apply unitPolygon_total; try done; rewrite ?Hn; try done; lia.
    - simpl. by eexists. }
  destruct Hbuild as [[elems st] Hbuild]. exists elems, st. split; [done|].
  unfold UMatrixSVG. rewrite Hbuild. unfold Encode, NewEncoder. simpl.
  by destruct (writeAll bytes W Write w (xmlWrites (marshal st elems))).
Qed.

(** X4. A call that does not return [nil] has written nothing: the sink is as
    it was, whether an error was returned or a panic was raised. *)
Theorem failure_leaves_sink_untouched (codebook : Dense) (coordsDims : list Z)
    (uShape title : string) (w : W) :
  (UMatrixSVG int_indefinite DistanceMx' Distance' GridCoords' bytes xmlWrites
     W Write codebook coordsDims uShape title w).1 <> Ok tt ->
  (UMatrixSVG int_indefinite DistanceMx' Distance' GridCoords' bytes xmlWrites
     W Write codebook coordsDims uShape title w).2 = w.
Proof.
  intros Hfail.
  destruct (build codebook coordsDims uShape title) as [[elems st]| |] eqn:E.
  - exfalso. apply Hfail. by erewrite UMatrixSVG_built by exact E.
  - unfold UMatrixSVG. by rewrite E.
  - unfold UMatrixSVG. by rewrite E.
Qed.

(** X5. An error of a collaborator is returned as it is, and the first one
    wins: that of [DistanceMx] on the codebook, else that of [GridCoords],
    else that of [DistanceMx] on the grid. This happens before [coordsDims]
    is indexed and before the maximum is taken, so neither can panic then. *)
Theorem collaborator_error_returned (codebook : Dense) (coordsDims : list Z)
    (uShape title : string) (w : W) (e : error) :
  DistanceMx' "euclidean" codebook = inr e \/
  (exists distMat : Dense,
      DistanceMx' "euclidean" codebook = inl distMat /\
      (GridCoords' uShape coordsDims = inr e \/
       exists coords : Dense,
         GridCoords' uShape coordsDims = inl coords /\
         DistanceMx' "euclidean" coords = inr e)) ->
  run codebook coordsDims uShape title w = (Err e, w).
Proof.
  unfold UMatrixSVG, buildElems.
  intros [H | (distMat & HdistMat & [H | (coords & Hcoords & H)])].
  - by rewrite H.
  - by rewrite HdistMat, H.
  - rewrite HdistMat, Hcoords. simpl. by rewrite H.
Qed.

(** X6. An empty weight-space distance matrix (as for a codebook without rows)
    makes [mat64.Max] panic with [ErrShape] at line 61, before anything is
    written. *)
Theorem empty_distance_matrix_panics (codebook : Dense) (coordsDims : list Z)
    (uShape title : string) (w : W) (distMat coords coordsDistMat : Dense) :
  DistanceMx' "euclidean" codebook = inl distMat ->
  GridCoords' uShape coordsDims = inl coords ->
  DistanceMx' "euclidean" coords = inl coordsDistMat ->
  (Dims distMat).1 = 0%nat \/ (Dims distMat).2 = 0%nat ->
  run codebook coordsDims uShape title w = (Panic ErrShape, w).
Proof.
  intros HdistMat Hcoords HcoordsDistMat Hzero.
  assert (Hmax : Max distMat = Panic ErrShape).
  { unfold Max. destruct (Dims distMat) as [r c]. simpl in Hzero.
    by destruct Hzero as [-> | ->]; [|rewrite orb_true_r]. }
  unfold UMatrixSVG, buildElems.
  rewrite HdistMat, Hcoords. simpl. rewrite HcoordsDistMat. simpl.
  by rewrite Hmax.
Qed.

(** X7. A codebook with more rows than the grid has units makes
    [coords.RowView(row)] panic with [ErrRowAccess] at the first row past
    the grid, after the polygons of the units before it were computed;
    nothing is written. *)
Theorem surplus_rows_panic (codebook : Dense) (coordsDims : list Z)
    (uShape title : string) (w : W) (distMat coords coordsDistMat : Dense)
    (maxDistance : float64) :
  (2 <= length coordsDims)%nat ->
  DistanceMx' "euclidean" codebook = inl distMat ->
  Max distMat = Ok maxDistance ->
  GridCoords' uShape coordsDims = inl coords ->
  has_shape (length coords) 2 coords ->
  DistanceMx' "euclidean" coords = inl coordsDistMat ->
  has_shape (length coords) (length coords) coordsDistMat ->
  Distance_total ->
  (length coords < length codebook)%nat ->
  run codebook coordsDims uShape title w = (Panic ErrRowAccess, w).
Proof.
  intros Hdims HdistMat Hmax Hcoords Hshape HcoordsDistMat Hsq Hdist Hlt.
  unfold UMatrixSVG, buildElems.
  rewrite HdistMat, Hcoords. simpl. rewrite HcoordsDistMat. simpl.
  rewrite Hmax. simpl. unfold index.
  destruct (lookup_lt_is_Some_2 coordsDims 1 ltac:(lia)) as [cols_ ->].
  destruct (lookup_lt_is_Some_2 coordsDims 0 ltac:(lia)) as [rows_ ->].
  simpl.
  replace (length codebook)
    with (length coords + S (length codebook - S (length coords)))%nat at 2
    by lia.
  rewrite seq_app, forRows_app.
  destruct (forRows_complete
              (unitPolygon int_indefinite Distance' codebook coords
                 coordsDistMat maxDistance uShape)
              (mkSlice 0 (length codebook)) (seq 0 (length coords))
              (replicate (length codebook) (mkPolygon "" ""))) as [st' ->].
  { apply Forall_forall. intros row Hin%elem_of_seq. simpl. split; [lia|].
    apply unitPolygon_total; try done; lia. }
  assert (Hk : unitPolygon int_indefinite Distance' codebook coords
                 coordsDistMat maxDistance uShape (length coords)
               = Panic ErrRowAccess).
  { unfold unitPolygon, RowView.
    by rewrite (lookup_ge_None_2 coords (length coords)) by lia. }
  simpl. by rewrite Hk.
Qed.

(** X8. The units are visited in index order and the first one whose body
    fails decides the outcome: its error is returned, or its panic raised,
    the polygons computed before it are dropped and nothing is written. *)
Theorem first_failing_unit_decides (codebook : Dense) (coordsDims : list Z)
    (uShape title : string) (w : W) (distMat coords coordsDistMat : Dense)
    (maxDistance : float64) (k : nat) :
  (2 <= length coordsDims)%nat ->
  DistanceMx' "euclidean" codebook = inl distMat ->
  Max distMat = Ok maxDistance ->
  GridCoords' uShape coordsDims = inl coords ->
  DistanceMx' "euclidean" coords = inl coordsDistMat ->
  (k < length codebook)%nat ->
  (forall row : nat, (row < k)%nat ->
     exists p : polygon,
       unitPolygon int_indefinite Distance' codebook coords coordsDistMat
         maxDistance uShape row = Ok p) ->
  (forall e : error,
     unitPolygon int_indefinite Distance' codebook coords coordsDistMat
       maxDistance uShape k = Err e ->
     run codebook coordsDims uShape title w = (Err e, w)) /\
  (forall pn : panic,
     unitPolygon int_indefinite Distance' codebook coords coordsDistMat
       maxDistance uShape k = Panic pn ->
     run codebook coordsDims uShape title w = (Panic pn, w)).
Proof.
  intros Hdims HdistMat Hmax Hcoords HcoordsDistMat Hk Hbefore.
  destruct (lookup_lt_is_Some_2 coordsDims 1 ltac:(lia)) as [cols_ Hcols].
  destruct (lookup_lt_is_Some_2 coordsDims 0 ltac:(lia)) as [rows_ Hrows].
  destruct (forRows_complete
              (unitPolygon int_indefinite Distance' codebook coords
                 coordsDistMat maxDistance uShape)
              (mkSlice 0 (length codebook)) (seq 0 k)
              (replicate (length codebook) (mkPolygon "" ""))) as [st Hst].
  { apply Forall_forall. intros row Hin%elem_of_seq. simpl. split; [lia|].
    apply Hbefore. lia. }
  split; intros x Hx; unfold UMatrixSVG, buildElems;
    rewrite HdistMat, Hcoords; simpl; rewrite HcoordsDistMat; simpl;
    rewrite Hmax; simpl; unfold index; rewrite Hcols, Hrows; simpl;
    (replace (length codebook) with (k + S (length codebook - S k))%nat at 2
       by lia);
    rewrite seq_app, forRows_app, Hst; simpl; by rewrite Hx.
Qed.

Lemma writeAll_app (w : W) (slices1 slices2 : list bytes) :
  writeAll bytes W Write w (slices1 ++ slices2)
  = match writeAll bytes W Write w slices1 with
    | (w1, None) => writeAll bytes W Write w1 slices2
    | (w1, Some e) => (w1, Some e)
    end.
Proof.
  revert w. induction slices1 as [|b rest IH]; intros w; [done|].
  simpl. destruct (Write w b) as [w' [e|]]; [done|]. apply IH.
Qed.

(** X12. When the sink accepts the first slices of the document and then
    rejects one, the call still returns [nil] and the sink is left with the
    slices it accepted (and whatever the rejected write did): a document cut
    short, and no later slice is written. *)
Theorem later_write_failure_truncates (codebook : Dense) (coordsDims : list Z)
    (uShape title : string) (elems : list elem) (st : store)
    (accepted rest : list bytes) (rejected : bytes) (w w1 w2 : W) (e : error) :
  build codebook coordsDims uShape title = Ok (elems, st) ->
  xmlWrites (marshal st elems) = accepted ++ rejected :: rest ->
  writeAll bytes W Write w accepted = (w1, None) ->
  Write w1 rejected = (w2, Some e) ->
  run codebook coordsDims uShape title w = (Ok tt, w2).
Proof.
  intros H Hslices Hacc Hrej.
  rewrite (UMatrixSVG_built _ _ _ _ _ _ _ _ _ _ _ _ _ _ _ H).
  rewrite Hslices, writeAll_app, Hacc. simpl. by rewrite Hrej.
Qed.

(** X9. A document that was built marshals to one [h1] element holding the
    title verbatim and one [svg] element with exactly one [polygon] child
    per row of the codebook, in unit order: child [row] is the polygon of
    unit [row], its [points] the closed outline around that unit's scaled
    grid position and its [style] the fill of that unit's intensity, the
    same on the three channels, with a black stroke of width 1. *)
Theorem document_shape (codebook : Dense) (coordsDims : list Z)
    (uShape title : string) (doc : list elem * store) :
  build codebook coordsDims uShape title = Ok doc ->
  exists (distMat coords coordsDistMat : Dense) (maxDistance : float64)
         (width height : float64) (children : list xml_node),
    DistanceMx' "euclidean" codebook = inl distMat /\
    Max distMat = Ok maxDistance /\
    GridCoords' uShape coordsDims = inl coords /\
    DistanceMx' "euclidean" coords = inl coordsDistMat /\
    marshal doc.2 doc.1 =
      [Element "h1" [] title [];
       Element "svg" [("width", AttrFloat64 width);
                      ("height", AttrFloat64 height)] "" children] /\
    length children = length codebook /\
    forall row : nat, (row < length codebook)%nat ->
      exists (coord : Vector) (cx cy d : float64),
        coords !! row = Some coord /\
        coord !! 0%nat = Some cx /\ coord !! 1%nat = Some cy /\
        avgDistanceOf Distance' codebook coordsDistMat row = Ok d /\
        children !! row =
          Some (Element "polygon"
                  [("points",
                    AttrBytes (sprintPoints
                                 (closedOutline (scale cx) (scale cy)
                                    (0.5 * MUL)%float (yOffsetOf uShape))));
                   ("style",
                    AttrString (styleOf (colorOf int_indefinite maxDistance d)))]
                  "" []).
Proof.
  intros H.
  destruct (buildElems_Ok _ _ _ _ _ _ _ _ _ H)
    as (distMat & coords & coordsDistMat & maxDistance & cols_ & rows_ & st
        & HdistMat & Hcoords & HcoordsDistMat & Hmax & _ & _ & _ & Hdoc).
  assert (Hpoly : polygonsOf doc = slice_elems (mkSlice 0 (length codebook)) doc.2).
  { rewrite Hdoc. unfold polygonsOf. simpl. by rewrite app_nil_r. }
  eexists distMat, coords, coordsDistMat, maxDistance, _, _,
    (marshal_polygon <$> polygonsOf doc).
  repeat (split; [done|]).
  split; [by rewrite Hpoly, Hdoc|].
  split.
  - rewrite length_fmap.
    destruct (codebook) as [|row0 rest] eqn:Ecb.
    + rewrite Hpoly. done.
    + destruct (buildElems_polygon _ _ _ _ _ _ _ _ _ 0%nat H) as
        (_ & _ & _ & _ & _ & _ & _ & _ & _ & _ & _ & Hlen); [simpl; lia|].
      done.
  - intros row Hrow.
    destruct (buildElems_polygon _ _ _ _ _ _ _ _ _ row H Hrow)
      as (distMat' & coords' & coordsDistMat' & maxDistance' & p
          & HdistMat' & Hcoords' & HcoordsDistMat' & Hmax' & Hp & Hlook & _).
    rewrite HdistMat in HdistMat'. injection HdistMat' as <-.
    rewrite Hmax in Hmax'. injection Hmax' as <-.
    rewrite Hcoords in Hcoords'. injection Hcoords' as <-.
    rewrite HcoordsDistMat in HcoordsDistMat'. injection HcoordsDistMat' as <-.
    apply unitPolygon_Ok in Hp as (coord & d & Hcoord & Hd & Hpc & Hstyle).
    apply polygonCoordsOf_Ok in Hpc as (cx & cy & Hcx & Hcy & Hpts).
    exists coord, cx, cy, d. repeat (split; [done|]).
    rewrite list_lookup_fmap, Hlook. simpl.
    unfold marshal_polygon. by rewrite Hstyle, Hpts.
Qed.

End Outcomes.

(** Line 92 on a unit without dissimilarity: with a positive maximum the
    intensity is 255. *)
Lemma colorOf_zero (indefinite : float64 -> Z) (dmax d : float64) :
  (d =? 0)%float = true -> (0 <? dmax)%float = true ->
  colorOf indefinite dmax d = 255.
Proof.
  intros [sd Hd]%eqb_zero_inv Hpos.
  rewrite FloatAxioms.ltb_spec, Prim2SF_zero in Hpos.
  unfold colorOf, int_of_f64, trunc_float.
  rewrite mul_spec, sub_spec, div_spec, Hd.
  destruct (Prim2SF dmax) as [s|s| |s m e]; try discriminate;
    destruct s; try discriminate; by destruct sd.
Qed.

Section White.

Context (int_indefinite : float64 -> Z)
        (DistanceMx' : string -> Dense -> checked Dense)
        (Distance' : string -> Vector -> Vector -> checked float64)
        (GridCoords' : string -> list Z -> checked Dense).

Local Abbreviation build := (buildElems int_indefinite DistanceMx' Distance' GridCoords').

(** X10. In a document that was built, a unit whose aggregated dissimilarity is 0
    (its neighbours carry its own weights) while the largest weight-space
    distance is positive is filled with [rgb(255,255,255)]. *)
Theorem zero_dissimilarity_white (codebook : Dense) (coordsDims : list Z)
    (uShape title : string) (doc : list elem * store)
    (distMat coords coordsDistMat : Dense) (dmax d : float64) (row : nat) :
  build codebook coordsDims uShape title = Ok doc ->
  (row < length codebook)%nat ->
  DistanceMx' "euclidean" codebook = inl distMat ->
  Max distMat = Ok dmax ->
  GridCoords' uShape coordsDims = inl coords ->
  DistanceMx' "euclidean" coords = inl coordsDistMat ->
  avgDistanceOf Distance' codebook coordsDistMat row = Ok d ->
  (d =? 0)%float = true ->
  (0 <? dmax)%float = true ->
  exists p : polygon,
    polygonsOf doc !! row = Some p /\
    Style p = "fill:rgb(255,255,255);stroke:black;stroke-width:1".
Proof.
  intros H Hrow HdistMat Hmax Hcoords HcoordsDistMat Hd Hz Hpos.
  destruct (buildElems_polygon _ _ _ _ _ _ _ _ _ _ H Hrow)
    as (distMat' & coords' & coordsDistMat' & maxDistance & p
        & HdistMat' & Hcoords' & HcoordsDistMat' & Hmax' & Hp & Hlook & _).
  rewrite HdistMat in HdistMat'. injection HdistMat' as <-.
  rewrite Hmax in Hmax'. injection Hmax' as <-.
  rewrite Hcoords in Hcoords'. injection Hcoords' as <-.
  rewrite HcoordsDistMat in HcoordsDistMat'. injection HcoordsDistMat' as <-.
  apply unitPolygon_Ok in Hp as (coord & d' & _ & Hd' & _ & Hstyle).
  rewrite Hd in Hd'. injection Hd' as <-.
  exists p. split; [done|].
  by rewrite Hstyle, (colorOf_zero _ _ _ Hz Hpos).
Qed.

End White.

(** ** Geometry on integer grid positions *)

(** X11. For a grid coordinate that is an integer [n] below 4096, lines 94-107
    compute without rounding: the box of the unit spans from [20 * n] to
    [20 * n + 20] along that axis (in the rectangular topology along both
    axes). So the boxes of adjacent positions share an edge, and the box of
    position [n] ends at [20 * n + 20], within a canvas extent of
    [20 * (n + 1) + 20]. *)
Theorem unit_box_exact (n : nat) :
  (n < 4096)%nat ->
  (scale (f64_of_int (Z.of_nat n)) - xOffsetOf)%float
  = f64_of_int (20 * Z.of_nat n) /\
  (scale (f64_of_int (Z.of_nat n)) + xOffsetOf)%float
  = f64_of_int (20 * Z.of_nat n + 20) /\
  (scale (f64_of_int (Z.of_nat n)) - yOffsetOf "rectangle")%float
  = f64_of_int (20 * Z.of_nat n) /\
  (scale (f64_of_int (Z.of_nat n)) + yOffsetOf "rectangle")%float
  = f64_of_int (20 * Z.of_nat n + 20) /\
  (f64_of_int (20 * Z.of_nat n + 20)
   <? f64_of_int (Z.of_nat (S n)) * MUL + 2 * OFF)%float = true.
Proof.
  intros Hn.
  assert (Hall : forallb (fun k : nat =>
            Leibniz.eqb (scale (f64_of_int (Z.of_nat k)) - xOffsetOf)%float
                        (f64_of_int (20 * Z.of_nat k))
            && Leibniz.eqb (scale (f64_of_int (Z.of_nat k)) + xOffsetOf)%float
                           (f64_of_int (20 * Z.of_nat k + 20))
            && Leibniz.eqb
                 (scale (f64_of_int (Z.of_nat k)) - yOffsetOf "rectangle")%float
                 (f64_of_int (20 * Z.of_nat k))
            && Leibniz.eqb
                 (scale (f64_of_int (Z.of_nat k)) + yOffsetOf "rectangle")%float
                 (f64_of_int (20 * Z.of_nat k + 20))
            && (f64_of_int (20 * Z.of_nat k + 20)
                <? f64_of_int (Z.of_nat (S k)) * MUL + 2 * OFF)%float)
          (seq 0 4096) = true) by (vm_compute; reflexivity).
  rewrite forallb_forall in Hall.
  specialize (Hall n ltac:(apply in_seq; lia)).
  repeat (apply andb_prop in Hall as [Hall ?]).
  repeat split; try (by apply Leibniz.eqb_spec); done.
Qed.

Lemma unit_box_exact_witness :
  (scale (f64_of_int (Z.of_nat 3)) - xOffsetOf)%float
  = f64_of_int (20 * Z.of_nat 3) /\
  (scale (f64_of_int (Z.of_nat 3)) + xOffsetOf)%float
  = f64_of_int (20 * Z.of_nat 3 + 20) /\
  (scale (f64_of_int (Z.of_nat 3)) - yOffsetOf "rectangle")%float
  = f64_of_int (20 * Z.of_nat 3) /\
  (scale (f64_of_int (Z.of_nat 3)) + yOffsetOf "rectangle")%float
  = f64_of_int (20 * Z.of_nat 3 + 20) /\
  (f64_of_int (20 * Z.of_nat 3 + 20)
   <? f64_of_int (Z.of_nat 4) * MUL + 2 * OFF)%float = true.
Proof. apply (unit_box_exact 3). lia. Defined.

(** ** Instances *)

(** Three units in a row, the first two with the same weights: unit 0 has
    unit 1 as its only neighbour. *)
Lemma zero_dissimilarity_white_witness :
  exists doc : list elem * store,
    buildElems_amd64 [[0; 0]; [0; 0]; [1; 1]]%float [1; 3] "rectangle" ""
      = Ok doc /\
    exists p : polygon,
      polygonsOf doc !! 0%nat = Some p /\
      Style p = "fill:rgb(255,255,255);stroke:black;stroke-width:1".
Proof.
  eexists. split; [reflexivity|].
  eapply (zero_dissimilarity_white amd64_indefinite DistanceMx Distance
            GridCoords [[0; 0]; [0; 0]; [1; 1]]%float [1; 3] "rectangle" "").
  - reflexivity.
  - simpl. lia.
  - reflexivity.
  - reflexivity.
  - reflexivity.
  - reflexivity.
  - reflexivity.
  - reflexivity.
  - reflexivity.
Defined.

Lemma render_succeeds_witness :
  exists (elems : list elem) (st : store),
    buildElems_amd64 squareCodebook [2; 2] "rectangle" "" = Ok (elems, st) /\
    UMatrixSVG_amd64 bufferWrite squareCodebook [2; 2] "rectangle" "" []
    = (Ok tt, (writeAll (list xml_node) (list (list xml_node)) bufferWrite []
                 [marshal st elems]).1).
Proof.
  unfold UMatrixSVG_amd64, buildElems_amd64.
  eapply (render_succeeds amd64_indefinite DistanceMx Distance GridCoords
            (list xml_node) (fun nodes => [nodes]) (list (list xml_node))
            bufferWrite squareCodebook [2; 2] "rectangle" "" []).
  - simpl. lia.
  - reflexivity.
  - reflexivity.
  - reflexivity.
  - split; [reflexivity | repeat constructor].
  - reflexivity.
  - split; [reflexivity | repeat constructor].
  - intros a b. eexists. reflexivity.
Defined.

(** An unknown topology: the call returns the error of [GridCoords] and the
    buffer keeps what it held. *)
Lemma failure_leaves_sink_untouched_witness :
  (UMatrixSVG_amd64 bufferWrite squareCodebook [2; 2] "triangle" ""
     [[Element "h1" [] "earlier" []]]).2
  = [[Element "h1" [] "earlier" []]].
Proof.
  unfold UMatrixSVG_amd64.
  apply (failure_leaves_sink_untouched amd64_indefinite DistanceMx Distance
           GridCoords (list xml_node) (fun nodes => [nodes])
           (list (list xml_node)) bufferWrite).
  vm_compute. discriminate.
Defined.

Lemma collaborator_error_returned_witness :
  UMatrixSVG_amd64 bufferWrite squareCodebook [2; 2] "triangle" "" []
  = (Err "UnsupportedTopology", []).
Proof.
  unfold UMatrixSVG_amd64.
  apply (collaborator_error_returned amd64_indefinite DistanceMx Distance
           GridCoords (list xml_node) (fun nodes => [nodes])
           (list (list xml_node)) bufferWrite).
  right. eexists. split; [reflexivity|]. left. reflexivity.
Defined.

(** A codebook without rows on a grid without units. *)
Lemma empty_distance_matrix_panics_witness :
  UMatrixSVG_amd64 bufferWrite [] [0; 0] "rectangle" "" []
  = (Panic ErrShape, []).
Proof.
  unfold UMatrixSVG_amd64.
  eapply (empty_distance_matrix_panics amd64_indefinite DistanceMx Distance
            GridCoords (list xml_node) (fun nodes => [nodes])
            (list (list xml_node)) bufferWrite [] [0; 0] "rectangle" "" []).
  - reflexivity.
  - reflexivity.
  - reflexivity.
  - left. reflexivity.
Defined.

(** Four rows of weights on a grid of two units. *)
Lemma surplus_rows_panic_witness :
  UMatrixSVG_amd64 bufferWrite squareCodebook [1; 2] "rectangle" "" []
  = (Panic ErrRowAccess, []).
Proof.
  unfold UMatrixSVG_amd64.
  eapply (surplus_rows_panic amd64_indefinite DistanceMx Distance GridCoords
            (list xml_node) (fun nodes => [nodes]) (list (list xml_node))
            bufferWrite squareCodebook [1; 2] "rectangle" "" []).
  - simpl. lia.
  - reflexivity.
  - reflexivity.
  - reflexivity.
  - split; [reflexivity | repeat constructor].
  - reflexivity.
  - split; [reflexivity | repeat constructor].
  - intros a b. eexists. reflexivity.
  - simpl. lia.
Defined.

(** The document of the 2 x 2 hexagonal map titled "U-Matrix". *)
Lemma document_shape_witness :
  exists doc : list elem * store,
    buildElems_amd64 squareCodebook [2; 2] "hexagon" "U-Matrix" = Ok doc /\
    exists (distMat coords coordsDistMat : Dense) (maxDistance : float64)
           (width height : float64) (children : list xml_node),
      DistanceMx "euclidean" squareCodebook = inl distMat /\
      Max distMat = Ok maxDistance /\
      GridCoords "hexagon" [2; 2] = inl coords /\
      DistanceMx "euclidean" coords = inl coordsDistMat /\
      marshal doc.2 doc.1 =
        [Element "h1" [] "U-Matrix" [];
         Element "svg" [("width", AttrFloat64 width);
                        ("height", AttrFloat64 height)] "" children] /\
      length children = length squareCodebook /\
      forall row : nat, (row < length squareCodebook)%nat ->
        exists (coord : Vector) (cx cy d : float64),
          coords !! row = Some coord /\
          coord !! 0%nat = Some cx /\ coord !! 1%nat = Some cy /\
          avgDistanceOf Distance squareCodebook coordsDistMat row = Ok d /\
          children !! row =
            Some (Element "polygon"
                    [("points",
                      AttrBytes (sprintPoints
                                   (closedOutline (scale cx) (scale cy)
                                      (0.5 * MUL)%float (yOffsetOf "hexagon"))));
                     ("style",
                      AttrString (styleOf (colorOf amd64_indefinite maxDistance d)))]
                    "" []).
Proof.
  eexists. split; [reflexivity|].
  apply (document_shape amd64_indefinite DistanceMx Distance GridCoords
           squareCodebook [2; 2] "hexagon" "U-Matrix").
  reflexivity.
Defined.

(** Two rows of weights on a grid of three units in a row: unit 0 has only
    unit 1 as a neighbour, unit 1 also has unit 2, which the codebook lacks. *)
Lemma first_failing_unit_decides_witness :
  UMatrixSVG_amd64 bufferWrite [[0; 0]; [1; 1]]%float [1; 3] "rectangle" "" []
  = (Panic ErrRowAccess, []).
Proof.
  unfold UMatrixSVG_amd64.
  refine (proj2 (first_failing_unit_decides amd64_indefinite DistanceMx
                   Distance GridCoords (list xml_node) (fun nodes => [nodes])
                   (list (list xml_node)) bufferWrite [[0; 0]; [1; 1]]%float
                   [1; 3] "rectangle" "" []
                   [[0; 0x1.6a09e667f3bcdp+0]; [0x1.6a09e667f3bcdp+0; 0]]%float
                   [[0; 0]; [1; 0]; [2; 0]]%float
                   [[0; 1; 2]; [1; 0; 1]; [2; 1; 0]]%float
                   0x1.6a09e667f3bcdp+0%float 1%nat _ _ _ _ _ _ _)
            ErrRowAccess _); try reflexivity.
  - simpl. lia.
  - intros row Hrow. assert (row = 0%nat) as -> by lia. eexists. reflexivity.
Defined.

(** The 2 x 2 scenario printed one element per slice into a sink with room
    for one: the title arrives, the [svg] element is rejected, the call
    returns [nil]. *)
Lemma later_write_failure_truncates_witness :
  UMatrixSVG amd64_indefinite DistanceMx Distance GridCoords
    (list xml_node) (fun nodes => (fun node => [node]) <$> nodes)
    (list (list xml_node)) roomForOne
    squareCodebook [2; 2] "rectangle" "U-Matrix" []
  = (Ok tt, [[Element "h1" [] "U-Matrix" []]]).
Proof.
  eapply (later_write_failure_truncates amd64_indefinite DistanceMx Distance
            GridCoords (list xml_node) (fun nodes => (fun node => [node]) <$> nodes)
            (list (list xml_node)) roomForOne squareCodebook [2; 2]
            "rectangle" "U-Matrix" _ _ [[Element "h1" [] "U-Matrix" []]] []).
  - reflexivity.
  - reflexivity.
  - reflexivity.
  - reflexivity.
Defined.
